(** * Quantum-mechanics RAG engine: retrieval core

    A shallow embedding of [RAG_engine.py], [rebuild_vector_store.py], the
    [/rag] handler of [main.py] and the request path of the chat front end
    [sapp.py], with the properties of the retrieval core stated over it.

    - Python [str] values are sequences of Unicode code points: [list N].
      [len] is [length], so a symbol such as U+222B counts for one character.
    - The file system, the log and the third-party libraries (PDF loader,
      text splitter, sentence embedder, FAISS store) are explicit: a [world]
      record threaded through a small state-and-exception monad, and a
      record [Libs] of the library entry points the program calls.
    - Exceptions are those that derive from [Exception], except in module
      [BaseExc], where the path of a query is given again for exceptions of
      any class. *)

From Stdlib Require Import ZArith NArith Ascii String List Lia DecimalString.
From Stdlib Require Import SpecFloat.
From stdpp Require Import base option list gmap.

Set Default Proof Using "Type".
Local Open Scope N_scope.

(** ** Python strings *)

Abbreviation str := (list N).

(** A literal of ASCII characters as a Python [str]. *)
Definition py (s : string) : str :=
  List.map N_of_ascii (list_ascii_of_string s).

Definition nl : N := 10.

(** [str.isspace] for one character: the code points CPython's
    [_PyUnicode_IsWhitespace] accepts. *)
Definition isspace (c : N) : bool :=
  ((9 <=? c) && (c <=? 13)) || ((28 <=? c) && (c <=? 32))
  || (c =? 133) || (c =? 160) || (c =? 5760)
  || ((8192 <=? c) && (c <=? 8202))
  || (c =? 8232) || (c =? 8233) || (c =? 8239) || (c =? 8287)
  || (c =? 12288).

Fixpoint lstrip (s : str) : str :=
  match s with
  | [] => []
  | c :: r => if isspace c then lstrip r else s
  end.

Definition rstrip (s : str) : str := rev (lstrip (rev s)).

(** [s.strip()] *)
Definition strip (s : str) : str := rstrip (lstrip s).

(** [s.split(sep)] for a one-character separator: never returns [[]]. *)
Fixpoint split (sep : N) (s : str) : list str :=
  match s with
  | [] => [[]]
  | c :: r =>
      if c =? sep then [] :: split sep r
      else match split sep r with
           | [] => [[c]]
           | l :: ls => (c :: l) :: ls
           end
  end.

(** [sep.join(parts)] *)
Fixpoint join (sep : str) (parts : list str) : str :=
  match parts with
  | [] => []
  | [p] => p
  | p :: ps => p ++ sep ++ join sep ps
  end.

(** [c in s] for a one-character string [c]. *)
Definition contains (c : N) (s : str) : bool := existsb (N.eqb c) s.

(** [s.count(c)] for a one-character string [c]. *)
Definition count (c : N) (s : str) : nat :=
  List.length (List.filter (N.eqb c) s).

(** [s.startswith(p)] *)
Fixpoint startswith (p s : str) : bool :=
  match p, s with
  | [], _ => true
  | _ :: _, [] => false
  | a :: p', b :: s' => (a =? b) && startswith p' s'
  end.

(** [os.path.join(a, b)] on POSIX. *)
Definition os_path_join (a b : str) : str :=
  if startswith (py "/") b then b
  else match last a with
       | None => b
       | Some c => if c =? 47 then a ++ b else a ++ py "/" ++ b
       end.

(** [str(n)] for a Python [int]. *)
Definition str_of_Z (z : Z) : str := py (NilZero.string_of_int (Z.to_int z)).

(** ** The formatter ([format_latex], RAG_engine.py lines 72-99) *)

(** The symbols of line 86: [=], [^], [_], U+222B, U+2211, U+2202, U+2206,
    U+221A. *)
Definition MATH_SYMBOLS : list N :=
  [61; 94; 95; 8747; 8721; 8706; 8710; 8730].

Definition ascii_letter (c : N) : bool :=
  ((97 <=? c) && (c <=? 122)) || ((65 <=? c) && (c <=? 90)).

(** [bool(re.search(r'\\[a-zA-Z]+', line))]: a backslash directly followed
    by at least one ASCII letter, anywhere in the line. *)
Fixpoint search_latex_command (s : str) : bool :=
  match s with
  | [] => false
  | c :: r =>
      ((c =? 92) && match r with d :: _ => ascii_letter d | [] => false end)
      || search_latex_command r
  end.

(** One iteration of the loop of lines 80-97: the lines formatted so far,
    extended (or not) by the current line. *)
Definition format_step (formatted_lines : list str) (line : str) : list str :=
  let line := strip line in
  match line with
  | [] => formatted_lines
  | _ =>
      let has_math := existsb (fun char => contains char line) MATH_SYMBOLS in
      let has_greek := search_latex_command line in
      if has_math || has_greek then
        if (1 <=? count 61 line)%nat && (List.length line <? 100)%nat
        then formatted_lines ++ [py "$$" ++ line ++ py "$$"]
        else formatted_lines ++ [py "$" ++ line ++ py "$"]
      else formatted_lines ++ [line]
  end.

Definition format_latex (text : str) : str :=
  let lines := split nl text in
  let formatted_lines := fold_left format_step lines [] in
  join [nl] formatted_lines.

(** What the loop tests on a stripped line (lines 86-89), as one predicate
    on any line. *)
Definition has_marker (line : str) : bool :=
  existsb (fun char => contains char line) MATH_SYMBOLS
  || search_latex_command line.

(** Made of white space only. *)
Definition spaces (s : str) : Prop := forallb isspace s = true.


(** ** Exceptions, the log and the file system *)

(** An instance of a subclass of Python's [Exception], that is, what
    [except Exception] catches; [str(e)] is [exn_msg e]. *)
Record exn := Exn { exn_class : str; exn_msg : str }.

Inductive level := INFO | WARNING | ERROR.

Inductive node := Dir | File (content : str).

(** The state the program runs in.  [history] records the file system after
    each mutation, oldest first: the states an observer of the disk (or an
    interruption) can meet. *)
Record world := World {
  fs : gmap str node;
  history : list (gmap str node);
  log : list (level * str)
}.

Inductive result (A : Type) := Ok (a : A) | Raise (e : exn).
Arguments Ok {A} a.
Arguments Raise {A} e.

(** Computations that read and write the world and may raise. *)
Definition M (A : Type) : Type := world -> result A * world.

#[global] Instance M_ret : MRet M := fun A a w => (Ok a, w).
#[global] Instance M_bind : MBind M := fun A B k c w =>
  match c w with
  | (Ok a, w') => k a w'
  | (Raise e, w') => (Raise e, w')
  end.

Definition raise {A} (e : exn) : M A := fun w => (Raise e, w).

(** [try: body  except Exception as e: handler(e)] *)
Definition try_except {A} (body : M A) (handler : exn -> M A) : M A :=
  fun w =>
    match body w with
    | (Ok a, w') => (Ok a, w')
    | (Raise e, w') => handler e w'
    end.

Definition lift {A} (r : result A) : M A := fun w => (r, w).

(** The world with one more log record. *)
Definition logged (lv : level) (msg : str) (w : world) : world :=
  {| fs := fs w; history := history w; log := log w ++ [(lv, msg)] |}.

(** [logger.info], [logger.warning], [logger.error] *)
Definition logger (lv : level) (msg : str) : M unit :=
  fun w => (Ok tt, logged lv msg w).

Definition read_fs : M (gmap str node) := fun w => (Ok (fs w), w).

(** The world once the disk has become [f]. *)
Definition wrote (f : gmap str node) (w : world) : world :=
  {| fs := f; history := history w ++ [f]; log := log w |}.

Definition write_fs (f : gmap str node) : M unit :=
  fun w => (Ok tt, wrote f w).

(** *** [os], [os.path], [shutil] *)

Definition os_error (errno : string) (p : str) (cls : string) : exn :=
  Exn (py cls) (py errno ++ py ": '" ++ p ++ py "'").

Definition os_path_exists (p : str) : M bool :=
  f ← read_fs;
  mret (match f !! p with Some _ => true | None => false end).

(** [os.makedirs(p, exist_ok=True)]; the parent of every directory the
    program creates already exists. *)
Definition os_makedirs (p : str) : M unit :=
  f ← read_fs;
  match f !! p with
  | Some Dir => mret tt
  | Some (File _) => raise (os_error "[Errno 17] File exists" p "FileExistsError")
  | None => write_fs (<[p := Dir]> f)
  end.

(** [q] is [d] itself or lies below it. *)
Definition within (d q : str) : Prop :=
  q = d \/ startswith (d ++ py "/") q = true.

#[global] Instance within_dec d q : Decision (within d q).
Proof. unfold within. apply _. Defined.

(** [shutil.rmtree(p)] *)
Definition shutil_rmtree (p : str) : M unit :=
  f ← read_fs;
  match f !! p with
  | Some Dir => write_fs (filter (fun kv => ¬ within p kv.1) f)
  | Some (File _) => raise (os_error "[Errno 20] Not a directory" p "NotADirectoryError")
  | None => raise (os_error "[Errno 2] No such file or directory" p "FileNotFoundError")
  end.

(** [os.path.getsize(p)]; the program only prints the size. *)
Definition os_path_getsize (p : str) : M N :=
  f ← read_fs;
  match f !! p with
  | Some (File c) => mret (N.of_nat (List.length c))
  | Some Dir => mret 0
  | None => raise (os_error "[Errno 2] No such file or directory" p "FileNotFoundError")
  end.

(** ** Documents and the third-party libraries *)

(** A metadata value; [format_value] is its rendering inside an f-string. *)
Inductive pyval := PInt (z : Z) | PStr (s : str).

Definition format_value (v : pyval) : str :=
  match v with PInt z => str_of_Z z | PStr s => s end.

(** langchain's [Document]. *)
Record Document := {
  page_content : str;
  metadata : gmap str pyval
}.

(** The library entry points the program calls.  Each may fail with an
    exception of the library's choosing. *)
Record Libs (Embeddings VectorStore : Type) := {
  (** [PyPDFLoader(path).load()], from the path and what is stored there *)
  pdf_load : str -> node -> result (list Document);
  (** [RecursiveCharacterTextSplitter(chunk_size, chunk_overlap,
      separators).split_documents(docs)] *)
  split_documents : nat -> nat -> list str -> list Document -> result (list Document);
  (** [SentenceTransformerEmbeddings(model_name=...)] *)
  SentenceTransformerEmbeddings : str -> result Embeddings;
  (** [FAISS.from_documents(chunks, embeddings)] *)
  from_documents : list Document -> Embeddings -> result VectorStore;
  (** what [save_local] stores in [index.faiss] and in [index.pkl] *)
  write_index : VectorStore -> str;
  pickle_dump : VectorStore -> str;
  (** what [load_local] makes of the two files *)
  read_index : str -> str -> Embeddings -> result VectorStore;
  (** the exception of a library call that cannot open a path *)
  io_error : str -> exn;
  (** [vector_store.similarity_search(query, k=k)] *)
  similarity_search : VectorStore -> str -> Z -> result (list Document)
}.
Arguments pdf_load {_ _}.
Arguments split_documents {_ _}.
Arguments SentenceTransformerEmbeddings {_ _}.
Arguments from_documents {_ _}.
Arguments write_index {_ _}.
Arguments pickle_dump {_ _}.
Arguments read_index {_ _}.
Arguments io_error {_ _}.
Arguments similarity_search {_ _}.

Section Library.
Context {Embeddings VectorStore : Type}.
Variable L : Libs Embeddings VectorStore.

Definition PyPDFLoader_load (pdf_path : str) : M (list Document) :=
  f ← read_fs;
  match f !! pdf_path with
  | Some n => lift (pdf_load L pdf_path n)
  | None => raise (io_error L pdf_path)
  end.

Definition write_file (p c : str) : M unit :=
  f ← read_fs;
  match f !! p with
  | Some Dir => raise (io_error L p)
  | _ => write_fs (<[p := File c]> f)
  end.

(** langchain's [FAISS.save_local(folder)] under the default index name:
    [mkdir(exist_ok=True, parents=True)], then the index data written to
    [folder/index.faiss], then the metadata pickled to [folder/index.pkl],
    the two files line 161 requires.  A write fails here only on a path that
    is a directory; a full disk, a missing permission or a failing
    serialisation, after which the real call can raise between the steps,
    is not part of the model, and nothing below rests on a save that cannot
    fail. *)
Definition FAISS_save_local (vector_store : VectorStore) (folder : str) : M unit :=
  os_makedirs folder;;
  write_file (os_path_join folder (py "index.faiss")) (write_index L vector_store);;
  write_file (os_path_join folder (py "index.pkl")) (pickle_dump L vector_store).

(** langchain's [FAISS.load_local(folder, embeddings, ...)]: read the index
    data file, then the metadata file. *)
Definition FAISS_load_local (folder : str) (embeddings : Embeddings) : M VectorStore :=
  f ← read_fs;
  match f !! os_path_join folder (py "index.faiss") with
  | Some (File a) =>
      match f !! os_path_join folder (py "index.pkl") with
      | Some (File b) => lift (read_index L a b embeddings)
      | _ => raise (io_error L (os_path_join folder (py "index.pkl")))
      end
  | _ => raise (io_error L (os_path_join folder (py "index.faiss")))
  end.
End Library.

(** ** The program *)

Section Program.
Context {Embeddings VectorStore : Type}.
(** [BASE_DIR]: the directory of the running script. *)
Variable BASE_DIR : str.
Variable L : Libs Embeddings VectorStore.

Definition PDF_FILES : list str :=
  [ os_path_join BASE_DIR (py "1.pdf");
    os_path_join BASE_DIR (py "2.pdf");
    os_path_join BASE_DIR (py "3.pdf");
    os_path_join BASE_DIR (py "4.pdf") ].

Definition VECTOR_STORE_DIR : str := os_path_join BASE_DIR (py "quantum_index").

(** The splitter's configuration (RAG_engine.py lines 47-51). *)
Definition chunk_size : nat := 800.
Definition chunk_overlap : nat := 100.
Definition separators : list str := [[nl; nl]; [nl]; py ". "; py " "; []].

Definition MODEL_NAME : str := py "all-MiniLM-L6-v2".

(** The loop of lines 32-41, from the documents loaded so far. *)
Fixpoint load_pdfs (pdf_files : list str) (all_docs : list Document)
  : M (list Document) :=
  match pdf_files with
  | [] => mret all_docs
  | pdf_path :: rest =>
      found ← os_path_exists pdf_path;
      if negb found then
        logger ERROR (py "PDF file not found: " ++ pdf_path);;
        load_pdfs rest all_docs
      else
        logger INFO (py "Loading PDF: " ++ pdf_path);;
        docs ← PyPDFLoader_load L pdf_path;
        let all_docs := all_docs ++ docs in
        logger INFO (py "Loaded " ++ str_of_Z (Z.of_nat (List.length docs))
                     ++ py " pages from " ++ pdf_path);;
        load_pdfs rest all_docs
  end.

Definition NO_DOCUMENTS : exn :=
  Exn (py "ValueError") (py "No documents loaded from PDFs").

(** Lines 29-44: load every PDF, fail when nothing was loaded. *)
Definition load_documents (pdf_files : list str) : M (list Document) :=
  all_docs ← load_pdfs pdf_files [];
  match all_docs with
  | [] => raise NO_DOCUMENTS
  | _ => mret all_docs
  end.

(** Lines 60-63: save the vector store. *)
Definition save_vector_store (vector_store : VectorStore) : M unit :=
  os_makedirs VECTOR_STORE_DIR;;
  FAISS_save_local L vector_store VECTOR_STORE_DIR;;
  logger INFO (py "Vector store saved to " ++ VECTOR_STORE_DIR).

Definition create_vector_store (pdf_files : list str) : M VectorStore :=
  try_except
    (all_docs ← load_documents pdf_files;
     chunks ← lift (split_documents L chunk_size chunk_overlap separators all_docs);
     logger INFO (py "Created " ++ str_of_Z (Z.of_nat (List.length chunks))
                  ++ py " chunks");;
     logger INFO (py "Creating embeddings...");;
     embeddings ← lift (SentenceTransformerEmbeddings L MODEL_NAME);
     vector_store ← lift (from_documents L chunks embeddings);
     save_vector_store vector_store;;
     mret vector_store)
    (fun e =>
       logger ERROR (py "Error creating vector store: " ++ exn_msg e);;
       raise e).

Definition NO_RESULTS : str :=
  py "No relevant information found in the documents.".

Definition SEPARATOR : str := [nl; nl] ++ py "---" ++ [nl; nl].

(** Lines 140-147: the source block of the [i]-th result. *)
Definition chunk_text (i : Z) (result : Document) : str :=
  let content := strip (page_content result) in
  let formatted_content := format_latex content in
  let page := default (PStr (py "N/A")) (metadata result !! py "page") in
  py "**Source " ++ str_of_Z i ++ py "** (Page " ++ format_value page
    ++ py "):" ++ [nl] ++ formatted_content.

(** The loop of lines 139-148, [enumerate] counting from [i]. *)
Fixpoint format_chunks (i : Z) (results : list Document) : list str :=
  match results with
  | [] => []
  | result :: rest => chunk_text i result :: format_chunks (i + 1) rest
  end.

(** Lines 114-126: make sure a store is there, then load it. *)
Definition open_vector_store (query : str) : M VectorStore :=
  found ← os_path_exists VECTOR_STORE_DIR;
  (if negb found then
     logger WARNING (py "Vector store not found at " ++ VECTOR_STORE_DIR
                     ++ py ". Creating new one...");;
     create_vector_store PDF_FILES;;
     mret tt
   else mret tt);;
  logger INFO (py "Loading vector store for query: " ++ query);;
  embeddings ← lift (SentenceTransformerEmbeddings L MODEL_NAME);
  FAISS_load_local L VECTOR_STORE_DIR embeddings.

(** The [try] block of [retrieve_answer], lines 114-150. *)
Definition retrieve_answer_body (query : str) (k : Z) : M str :=
  vector_store ← open_vector_store query;
  results ← lift (similarity_search L vector_store query k);
  match results with
  | [] =>
      logger WARNING (py "No results found for query");;
      mret NO_RESULTS
  | _ =>
      logger INFO (py "Found " ++ str_of_Z (Z.of_nat (List.length results))
                   ++ py " relevant chunks");;
      mret (join SEPARATOR (format_chunks 1 results))
  end.

Definition ERROR_PREFIX : str := py "Error retrieving information: ".

Definition retrieve_answer (query : str) (k : Z) : M str :=
  try_except (retrieve_answer_body query k)
    (fun e =>
       let error_msg := ERROR_PREFIX ++ exn_msg e in
       logger ERROR error_msg;;
       mret error_msg).

(** Lines 159-164. *)
Definition vector_store_exists : M bool :=
  let required_files := [py "index.faiss"; py "index.pkl"] in
  f ← read_fs;
  mret (match f !! VECTOR_STORE_DIR with Some _ => true | None => false end
        && forallb (fun name =>
             match f !! os_path_join VECTOR_STORE_DIR name with
             | Some _ => true | None => false end) required_files).

(** Importing [RAG_engine] runs lines 167-172. *)
Definition import_RAG_engine : M unit :=
  found ← vector_store_exists;
  if negb found then
    logger WARNING (py "Vector store not found at " ++ VECTOR_STORE_DIR
      ++ py ". Please run 'python setup_vector_store.py' to create it.")
  else mret tt.

(** *** The [/rag] handler of main.py (lines 23-38) *)

Definition FALLBACK : str := py "No relevant information found in documents.".

Definition rag (query : str) : M (gmap str str) :=
  try_except
    (logger INFO (py "RAG query received: " ++ query);;
     context ← retrieve_answer query 3;
     match context with
     | [] => mret {[ py "context" := FALLBACK ]}
     | _ =>
         logger INFO (py "Context retrieved successfully, length: "
                      ++ str_of_Z (Z.of_nat (List.length context)));;
         mret {[ py "context" := context ]}
     end)
    (fun e =>
       logger ERROR (py "RAG error: " ++ exn_msg e);;
       mret (<[ py "error" := exn_msg e ]> {[ py "context" := [] ]})).

(** *** rebuild_vector_store.py *)

(** How a run of the script that reaches its [try] statement ends: with
    the success banner, or with the error banner and [str(e)]. *)
Inductive rebuilt := Rebuilt | BuildFailed (msg : str).

(** The loop of lines 21-23; what it prints is not modelled. *)
Fixpoint list_sizes (pdfs : list str) : M unit :=
  match pdfs with
  | [] => mret tt
  | pdf :: rest => os_path_getsize pdf;; list_sizes rest
  end.

(** The script: an exception outside its [try] statement aborts it. *)
Definition rebuild_vector_store : M rebuilt :=
  import_RAG_engine;;
  found ← os_path_exists VECTOR_STORE_DIR;
  (if (found : bool) then shutil_rmtree VECTOR_STORE_DIR else mret tt);;
  list_sizes PDF_FILES;;
  try_except
    (create_vector_store PDF_FILES;; mret Rebuilt)
    (fun e => mret (BuildFailed (exn_msg e))).
End Program.

(** ** Exceptions that [except Exception] lets through

    [except Exception] catches the instances of [Exception] and of its
    subclasses.  [KeyboardInterrupt], [SystemExit] and [GeneratorExit]
    derive from [BaseException] alone and pass through such a clause.  In
    this module a value of [exn] stands for an instance of any subclass of
    [BaseException], and [is_Exception e] is [isinstance(e, Exception)].
    The functions on the path of a query that have an [except Exception]
    clause, and those that call them, are given with that test; everything
    else is the program above. *)
Module BaseExc.
Section Program.
Context {Embeddings VectorStore : Type}.
Variable is_Exception : exn -> bool.
Variable BASE_DIR : str.
Variable L : Libs Embeddings VectorStore.

(** [try: body  except Exception as e: handler(e)] *)
Definition try_except {A} (body : M A) (handler : exn -> M A) : M A :=
  fun w =>
    match body w with
    | (Ok a, w') => (Ok a, w')
    | (Raise e, w') => if is_Exception e then handler e w' else (Raise e, w')
    end.

(** RAG_engine.py lines 26-69. *)
Definition create_vector_store (pdf_files : list str) : M VectorStore :=
  try_except
    (all_docs ← load_documents L pdf_files;
     chunks ← lift (split_documents L chunk_size chunk_overlap separators all_docs);
     logger INFO (py "Created " ++ str_of_Z (Z.of_nat (List.length chunks))
                  ++ py " chunks");;
     logger INFO (py "Creating embeddings...");;
     embeddings ← lift (SentenceTransformerEmbeddings L MODEL_NAME);
     vector_store ← lift (from_documents L chunks embeddings);
     save_vector_store BASE_DIR L vector_store;;
     mret vector_store)
    (fun e =>
       logger ERROR (py "Error creating vector store: " ++ exn_msg e);;
       raise e).

(** Lines 114-126. *)
Definition open_vector_store (query : str) : M VectorStore :=
  found ← os_path_exists (VECTOR_STORE_DIR BASE_DIR);
  (if negb found then
     logger WARNING (py "Vector store not found at " ++ VECTOR_STORE_DIR BASE_DIR
                     ++ py ". Creating new one...");;
     create_vector_store (PDF_FILES BASE_DIR);;
     mret tt
   else mret tt);;
  logger INFO (py "Loading vector store for query: " ++ query);;
  embeddings ← lift (SentenceTransformerEmbeddings L MODEL_NAME);
  FAISS_load_local L (VECTOR_STORE_DIR BASE_DIR) embeddings.

(** The [try] block of [retrieve_answer], lines 114-150. *)
Definition retrieve_answer_body (query : str) (k : Z) : M str :=
  vector_store ← open_vector_store query;
  results ← lift (similarity_search L vector_store query k);
  match results with
  | [] =>
      logger WARNING (py "No results found for query");;
      mret NO_RESULTS
  | _ =>
      logger INFO (py "Found " ++ str_of_Z (Z.of_nat (List.length results))
                   ++ py " relevant chunks");;
      mret (join SEPARATOR (format_chunks 1 results))
  end.

(** Lines 102-155. *)
Definition retrieve_answer (query : str) (k : Z) : M str :=
  try_except (retrieve_answer_body query k)
    (fun e =>
       let error_msg := ERROR_PREFIX ++ exn_msg e in
       logger ERROR error_msg;;
       mret error_msg).
End Program.
End BaseExc.

(** ** The chat front end (sapp.py)

    The front end keeps its state in Streamlit's [st.session_state], talks
    to the service over HTTP and reads the answers as JSON. *)

(** A JSON value as [response.json()] returns it: a number is an [int] or a
    binary64 [float]; an object keeps its keys in their order. *)
Inductive json :=
| JNull
| JBool (b : bool)
| JInt (z : Z)
| JFloat (f : spec_float)
| JStr (s : str)
| JList (l : list json)
| JDict (d : list (str * json)).

(** [bool(v)] *)
Definition truthy (v : json) : bool :=
  match v with
  | JNull => false
  | JBool b => b
  | JInt z => negb (z =? 0)%Z
  | JFloat f => match f with S754_zero _ => false | _ => true end
  | JStr s => match s with [] => false | _ => true end
  | JList l => match l with [] => false | _ => true end
  | JDict d => match d with [] => false | _ => true end
  end.

(** [p in s] for two strings. *)
Fixpoint substring (p s : str) : bool :=
  match s with
  | [] => startswith p []
  | _ :: r => startswith p s || substring p r
  end.

(** [d.get(key)] on the entries of an object. *)
Definition dict_get (d : list (str * json)) (key : str) : option json :=
  snd <$> List.find (fun kv => bool_decide (kv.1 = key)) d.

(** What [requests.get] returns: the status, the outcome of [.json()] and
    [.text]. *)
Record http_response := {
  status_code : Z;
  json_body : result json;
  text : str
}.

(** What the front end takes from its runtime and its libraries. *)
Record Front := {
  (** [DEBUG_MODE], read from the query parameters when the script starts *)
  DEBUG_MODE : bool;
  (** [datetime.datetime.now()], as microseconds since the epoch *)
  datetime_now : Z;
  (** [requests.get(url, params=..., timeout=...)] *)
  requests_get : str -> list (str * str) -> Z -> result http_response;
  (** whether an exception is an instance of [requests.exceptions.Timeout],
      of [requests.exceptions.ConnectionError], of [json.JSONDecodeError] *)
  is_Timeout : exn -> bool;
  is_ConnectionError : exn -> bool;
  is_JSONDecodeError : exn -> bool;
  (** [json.dumps(v, indent=2)] *)
  json_dumps : json -> str;
  (** how an f-string shows a value that is not a [str] *)
  format_json : json -> str;
  (** the [TypeError] of [key in v] on a [v] that is not iterable *)
  not_iterable : json -> exn;
  (** the exception of [v[key]] for a string [key] that [v] does not take *)
  getitem_error : json -> str -> exn;
  (** the [AttributeError] of [v.keys()] on a [v] that is not an object *)
  no_keys : json -> exn;
  (** [traceback.format_exc()] while the exception is handled *)
  traceback_format_exc : exn -> str
}.

(** A value of the session state. *)
Inductive sval :=
| SNone
| SStr (s : str)
| SDatetime (t : Z)
| SList (messages : list (gmap str str)).

(** What the script puts on the page through [st.info], [st.write] and
    [st.json]. *)
Inductive ui_event :=
| StInfo (s : str)
| StWrite (s : str)
| StJson (v : json).

Record ui := {
  session_state : gmap str sval;
  shown : list ui_event
}.

(** Computations of the front end. *)
Definition U (A : Type) : Type := ui -> result A * ui.

#[global] Instance U_ret : MRet U := fun A a s => (Ok a, s).
#[global] Instance U_bind : MBind U := fun A B k c s =>
  match c s with
  | (Ok a, s') => k a s'
  | (Raise e, s') => (Raise e, s')
  end.

Definition u_raise {A} (e : exn) : U A := fun s => (Raise e, s).

Definition u_lift {A} (r : result A) : U A := fun s => (r, s).

(** [try: body  except Exception as e: handler(e)] *)
Definition u_try {A} (body : U A) (handler : exn -> U A) : U A :=
  fun s =>
    match body s with
    | (Ok a, s') => (Ok a, s')
    | (Raise e, s') => handler e s'
    end.

(** [key in st.session_state] *)
Definition state_has (key : str) : U bool :=
  fun s => (Ok (match session_state s !! key with Some _ => true | None => false end), s).

(** [st.session_state.key = v] *)
Definition set_state (key : str) (v : sval) : U unit :=
  fun s => (Ok tt, {| session_state := <[key := v]> (session_state s);
                      shown := shown s |}).

Definition show (e : ui_event) : U unit :=
  fun s => (Ok tt, {| session_state := session_state s; shown := shown s ++ [e] |}).

(** Lines 184-197. *)
Definition init_session_state : U unit :=
  (b ← state_has (py "rag_messages");
   if negb b then set_state (py "rag_messages") (SList []) else mret tt);;
  (b ← state_has (py "ai_messages");
   if negb b then set_state (py "ai_messages") (SList []) else mret tt);;
  (b ← state_has (py "mode");
   if negb b then set_state (py "mode") SNone else mret tt);;
  (b ← state_has (py "last_request_time");
   if negb b then set_state (py "last_request_time") SNone else mret tt);;
  (b ← state_has (py "api_status");
   if negb b then set_state (py "api_status") SNone else mret tt);;
  (b ← state_has (py "last_error");
   if negb b then set_state (py "last_error") SNone else mret tt).

Section FrontEnd.
Variable F : Front.

(** [key in data] *)
Definition py_in (key : str) (data : json) : result bool :=
  match data with
  | JDict d => Ok (match dict_get d key with Some _ => true | None => false end)
  | JList l =>
      Ok (existsb (fun v => match v with
                            | JStr s => bool_decide (s = key)
                            | _ => false
                            end) l)
  | JStr s => Ok (substring key s)
  | _ => Raise (not_iterable F data)
  end.

(** [data[key]] *)
Definition py_getitem (data : json) (key : str) : result json :=
  match data with
  | JDict d =>
      match dict_get d key with
      | Some v => Ok v
      | None => Raise (getitem_error F data key)
      end
  | _ => Raise (getitem_error F data key)
  end.

(** [data.keys()] *)
Definition py_keys (data : json) : result (list str) :=
  match data with
  | JDict d => Ok (List.map fst d)
  | _ => Raise (no_keys F data)
  end.

(** A value inside an f-string. *)
Definition fmt (v : json) : str :=
  match v with
  | JStr s => s
  | _ => format_json F v
  end.

Definition API_RAG : str := py "http://127.0.0.1:8000/rag".
Definition API_AI : str := py "http://127.0.0.1:8000/troubleshoot".

(** The warning sign that opens every error message: U+26A0, U+FE0F. *)
Definition WARN : str := [9888; 65039].

Definition possible_keys : list str :=
  [ py "response"; py "answer"; py "troubleshooting_guide"; py "context";
    py "result"; py "output"; py "text"; py "message" ].

(** [st.session_state.last_error = error_msg; return error_msg] *)
Definition error_return (error_msg : str) : U str :=
  set_state (py "last_error") (SStr error_msg);;
  mret error_msg.

(** The loop of lines 289-297: [Some] what it returns, [None] when it runs
    to its end. *)
Fixpoint scan_keys (keys : list str) (data : json) : U (option str) :=
  match keys with
  | [] => mret None
  | key :: rest =>
      present ← u_lift (py_in key data);
      if (present : bool) then
        content ← u_lift (py_getitem data key);
        if truthy content then
          match content with
          | JStr s =>
              match strip s with
              | [] => scan_keys rest data
              | _ =>
                  set_state (py "last_error") SNone;;
                  mret (Some s)
              end
          | JDict _ | JList _ => mret (Some (json_dumps F content))
          | _ => scan_keys rest data
          end
        else scan_keys rest data
      else scan_keys rest data
  end.

(** Lines 253-259: the message for a status other than 200. *)
Definition status_message (response : http_response) : str :=
  let error_msg :=
    WARN ++ py " API Error (Status " ++ str_of_Z (status_code response) ++ py ")" in
  let details : result str :=
    match json_body response with
    | Ok error_data =>
        match py_in (py "error") error_data with
        | Ok true =>
            match py_getitem error_data (py "error") with
            | Ok v => Ok (error_msg ++ [nl; nl] ++ py "**Details:** " ++ fmt v)
            | Raise e => Raise e
            end
        | Ok false => Ok error_msg
        | Raise e => Raise e
        end
    | Raise e => Raise e
    end in
  match details with
  | Ok msg => msg
  | Raise _ =>
      error_msg ++ [nl; nl] ++ py "**Response:** " ++ take 200 (text response)
  end.

Definition TIMEOUT_MESSAGE : str :=
  WARN ++ py " Request timed out after 60 seconds. The model might be loading or the server is overloaded. Please try again.".

Definition connection_message (url : str) : str :=
  WARN ++ py " Cannot connect to API server at `" ++ url ++ py "`" ++ [nl; nl]
  ++ py "**Troubleshooting:**" ++ [nl]
  ++ py "1. Make sure FastAPI server is running: `python your_api_file.py`" ++ [nl]
  ++ py "2. Check if the URL is correct" ++ [nl]
  ++ py "3. Verify no firewall is blocking the connection".

Definition unexpected_format (data : json) (keys : list str) : str :=
  WARN ++ py " Unexpected response format." ++ [nl; nl]
  ++ py "**Available keys:** " ++ join (py ", ") keys ++ [nl; nl]
  ++ py "**Full response:**" ++ [nl] ++ py "```json" ++ [nl]
  ++ json_dumps F data ++ [nl] ++ py "```".

(** The [try] block of [get_response], lines 234-308. *)
Definition get_response_body (prompt mode : str) : U str :=
  set_state (py "last_request_time") (SDatetime (datetime_now F));;
  let url := if decide (mode = py "rag") then API_RAG else API_AI in
  let param_key := if decide (mode = py "rag") then py "query" else py "issue" in
  (if DEBUG_MODE F then
     show (StInfo ([128269] ++ py " Calling " ++ url ++ py " with " ++ param_key
                   ++ py "='" ++ take 50 prompt ++ py "...'"))
   else mret tt);;
  response ← u_lift (requests_get F url [(param_key, prompt)] 60);
  if negb (status_code response =? 200)%Z then
    error_return (status_message response)
  else
    match json_body response with
    | Raise e =>
        if is_JSONDecodeError F e then
          error_return (WARN ++ py " Invalid JSON response from API" ++ [nl; nl]
                        ++ py "**Raw response:** " ++ take 500 (text response))
        else u_raise e
    | Ok data =>
        (if DEBUG_MODE F then
           show (StWrite (py "**" ++ [128230] ++ py " API Response Structure:**"));;
           show (StJson data)
         else mret tt);;
        found ← scan_keys possible_keys data;
        match found with
        | Some content => mret content
        | None =>
            has_error ← u_lift (py_in (py "error") data);
            if (has_error : bool) then
              v ← u_lift (py_getitem data (py "error"));
              error_return (WARN ++ py " API Error: " ++ fmt v)
            else
              keys ← u_lift (py_keys data);
              error_return (unexpected_format data keys)
        end
    end.

(** The three [except] clauses, lines 310-326. *)
Definition get_response_handler (mode : str) (e : exn) : U str :=
  let url := if decide (mode = py "rag") then API_RAG else API_AI in
  if is_Timeout F e then error_return TIMEOUT_MESSAGE
  else if is_ConnectionError F e then error_return (connection_message url)
  else
    let error_msg :=
      WARN ++ py " Unexpected error: " ++ exn_msg e ++ [nl; nl]
      ++ py "**Type:** " ++ exn_class e in
    set_state (py "last_error") (SStr error_msg);;
    mret (if DEBUG_MODE F then
            error_msg ++ [nl; nl] ++ py "**Traceback:**" ++ [nl] ++ py "```" ++ [nl]
            ++ traceback_format_exc F e ++ [nl] ++ py "```"
          else error_msg).

Definition get_response (prompt mode : str) : U str :=
  u_try (get_response_body prompt mode) (get_response_handler mode).

Definition API_HEALTH : str := py "http://127.0.0.1:8000/health".

(** The second component of what [check_api_health] returns: the parsed
    answer of the service, or a text. *)
Inductive health_info :=
| HealthJson (v : json)
| HealthText (s : str).

(** Lines 205-217. *)
Definition check_api_health : result (bool * health_info) :=
  let body : result (bool * health_info) :=
    match requests_get F API_HEALTH [] 5 with
    | Ok response =>
        if (status_code response =? 200)%Z then
          match json_body response with
          | Ok v => Ok (true, HealthJson v)
          | Raise e => Raise e
          end
        else
          Ok (false, HealthText (py "API returned status "
                                 ++ str_of_Z (status_code response)))
    | Raise e => Raise e
    end in
  match body with
  | Ok answer => Ok answer
  | Raise e =>
      if is_ConnectionError F e then
        Ok (false, HealthText (py "Cannot connect to API server"))
      else if is_Timeout F e then
        Ok (false, HealthText (py "API health check timed out"))
      else Ok (false, HealthText (exn_msg e))
  end.
End FrontEnd.

(** ** Notions used to state the properties *)

(** The three shapes of what [retrieve_answer] returns. *)
Definition answer_shape (s : str) : Prop :=
  (exists msg, s = ERROR_PREFIX ++ msg)
  \/ s = NO_RESULTS
  \/ exists results : list Document,
       results <> [] /\ s = join SEPARATOR (format_chunks 1 results).

(** What loading the file at [p] adds to the log, on the disk [f], when the
    loader yields [pages p] for it. *)
Definition load_log (f : gmap str node) (pages : str -> list Document) (p : str)
  : list (level * str) :=
  match f !! p with
  | None => [(ERROR, py "PDF file not found: " ++ p)]
  | Some _ =>
      [(INFO, py "Loading PDF: " ++ p);
       (INFO, py "Loaded " ++ str_of_Z (Z.of_nat (List.length (pages p)))
              ++ py " pages from " ++ p)]
  end.

(** The pages of the files of [paths] that exist on [f], in order. *)
Definition loaded_pages (f : gmap str node) (pages : str -> list Document)
  (paths : list str) : list Document :=
  List.concat
    (List.map (fun p => match f !! p with Some _ => pages p | None => [] end) paths).

(** [a] as a prefix of the paths below it. *)
Definition slashed (a : str) : str :=
  match last a with
  | None => []
  | Some c => if c =? 47 then a else a ++ py "/"
  end.

(** The two files of a saved index (line 161). *)
Definition index_faiss (BASE_DIR : str) : str :=
  os_path_join (VECTOR_STORE_DIR BASE_DIR) (py "index.faiss").

Definition index_pkl (BASE_DIR : str) : str :=
  os_path_join (VECTOR_STORE_DIR BASE_DIR) (py "index.pkl").

(** The disk once the index directory is there. *)
Definition with_index_dir (BASE_DIR : str) (f : gmap str node) : gmap str node :=
  match f !! VECTOR_STORE_DIR BASE_DIR with
  | None => <[VECTOR_STORE_DIR BASE_DIR := Dir]> f
  | Some _ => f
  end.

(** A computation never rewrites the history of the disk, it extends it. *)
Definition extends_history {A : Type} (c : M A) : Prop :=
  forall (w w' : world) (r : result A),
    c w = (r, w') -> exists later, history w' = history w ++ later.

(** The rebuild script from after its deletion step (lines 20-47). *)
Definition rebuild_tail {Embeddings VectorStore : Type}
  (BASE_DIR : str) (L : Libs Embeddings VectorStore) : M rebuilt :=
  list_sizes (PDF_FILES BASE_DIR);;
  try_except
    (create_vector_store BASE_DIR L (PDF_FILES BASE_DIR);; mret Rebuilt)
    (fun e => mret (BuildFailed (exn_msg e))).

(** The list [formatted_lines] at the end of the loop of [format_latex]. *)
Definition formatted_lines (text : str) : list str :=
  fold_left format_step (split nl text) [].

(** A line as [format_latex] puts it out: not empty, without a line break,
    without white space at either end. *)
Definition tidy (l : str) : Prop :=
  l <> [] /\ contains nl l = false /\ strip l = l.

(** A computation that leaves the disk alone. *)
Definition keeps_disk {A : Type} (c : M A) : Prop :=
  forall (w w' : world) (r : result A),
    c w = (r, w') -> fs w' = fs w /\ history w' = history w.

(** The first path of [pdfs] that does not exist on [f]. *)
Definition first_missing (f : gmap str node) (pdfs : list str) : option str :=
  List.find (fun p => match f !! p with Some _ => false | None => true end) pdfs.

(** The stages of a query once the index directory is known to be there
    (lines 119-150): make the embedder, load the index, search it, format
    the results.  The first stage that raises ends the run with its
    exception. *)
Definition load_and_search {Embeddings VectorStore : Type}
  (BASE_DIR : str) (L : Libs Embeddings VectorStore) (query : str) (k : Z)
  (w : world) : result str * world :=
  match SentenceTransformerEmbeddings L MODEL_NAME with
  | Raise e => (Raise e, w)
  | Ok embeddings =>
      match FAISS_load_local L (VECTOR_STORE_DIR BASE_DIR) embeddings w with
      | (Raise e, w1) => (Raise e, w1)
      | (Ok vector_store, w1) =>
          match similarity_search L vector_store query k with
          | Raise e => (Raise e, w1)
          | Ok [] =>
              (Ok NO_RESULTS, logged WARNING (py "No results found for query") w1)
          | Ok results =>
              (Ok (join SEPARATOR (format_chunks 1 results)),
               logged INFO (py "Found "
                            ++ str_of_Z (Z.of_nat (List.length results))
                            ++ py " relevant chunks") w1)
          end
      end
  end.

(** *** Notions used to state the properties of the front end *)

(** The values [init_session_state] gives to the keys it finds missing. *)
Definition SESSION_DEFAULTS : gmap str sval :=
  list_to_map
    [ (py "rag_messages", SList []);
      (py "ai_messages", SList []);
      (py "mode", SNone);
      (py "last_request_time", SNone);
      (py "api_status", SNone);
      (py "last_error", SNone) ].

(** What the loop of [get_response] makes of one value: the text to return
    and whether it is a string of the answer itself ([true]) or the dump of
    a list or an object ([false]); [None] for a value it passes over. *)
Definition usable (F : Front) (v : json) : option (str * bool) :=
  if truthy v then
    match v with
    | JStr s => match strip s with [] => None | _ => Some (s, true) end
    | JDict _ | JList _ => Some (json_dumps F v, false)
    | _ => None
    end
  else None.

(** The first of [keys] that the object [d] has with a usable value. *)
Fixpoint first_usable (F : Front) (d : list (str * json)) (keys : list str)
  : option (str * bool) :=
  match keys with
  | [] => None
  | key :: rest =>
      match dict_get d key ≫= usable F with
      | Some u => Some u
      | None => first_usable F d rest
      end
  end.

(** The session state with [last_error] set to [v]. *)
Definition with_last_error (v : sval) (s : ui) : ui :=
  {| session_state := <[py "last_error" := v]> (session_state s);
     shown := shown s |}.

(** ** A concrete setting

    Toy libraries and small disks on which the program can be run. *)

Module Demo.

Definition BASE : str := py "/app".

Definition hit (text : str) : Document :=
  {| page_content := text; metadata := {[ py "page" := PInt 0 ]} |}.

(** A store is the list of its chunk texts; both files hold the texts, one
    per line; a search returns the chunks that start with the query. *)
Definition toy : Libs unit (list str) := {|
  pdf_load p n :=
    match n with
    | File [] => Ok []
    | File c => Ok [hit c]
    | Dir => Raise (Exn (py "IsADirectoryError") p)
    end;
  split_documents _ _ _ docs := Ok docs;
  SentenceTransformerEmbeddings _ := Ok tt;
  from_documents chunks _ :=
    match chunks with
    | [] => Raise (Exn (py "IndexError") (py "list index out of range"))
    | _ => Ok (List.map page_content chunks)
    end;
  write_index vs := join [nl] vs;
  pickle_dump vs := join [nl] vs;
  read_index a b _ :=
    if decide (a = b) then Ok (split nl a)
    else Raise (Exn (py "RuntimeError") (py "index files do not match"));
  io_error p := Exn (py "RuntimeError") (py "could not open " ++ p);
  similarity_search vs q k :=
    Ok (take (Z.to_nat k) (List.map hit (List.filter (startswith q) vs)))
|}.

Definition on_disk (disk : gmap str node) : world :=
  {| fs := disk; history := []; log := [] |}.

(** The four PDFs and no index directory. *)
Definition disk_pdfs : gmap str node :=
  list_to_map
    [ (py "/app", Dir);
      (py "/app/1.pdf", File (py "E = mc^2"));
      (py "/app/2.pdf", File (py "just text"));
      (py "/app/3.pdf", File (py "p = mv"));
      (py "/app/4.pdf", File (py "spin")) ].

(** An index directory without the two index files. *)
Definition disk_empty_dir : gmap str node :=
  <[ py "/app/quantum_index" := Dir ]> disk_pdfs.

(** A complete index, saved from the one-chunk store [["old"]]. *)
Definition disk_old_index : gmap str node :=
  <[ py "/app/quantum_index/index.pkl" := File (py "old") ]>
  (<[ py "/app/quantum_index/index.faiss" := File (py "old") ]> disk_empty_dir).

(** A complete index and no readable PDF. *)
Definition disk_no_pdfs : gmap str node :=
  <[ py "/app/quantum_index/index.pkl" := File (py "old") ]>
  (<[ py "/app/quantum_index/index.faiss" := File (py "old") ]>
   (<[ py "/app/quantum_index" := Dir ]> {[ py "/app" := Dir ]})).

(** Two of the four PDFs: [2.pdf] and [4.pdf] are missing. *)
Definition disk_two_pdfs : gmap str node :=
  list_to_map
    [ (py "/app", Dir);
      (py "/app/1.pdf", File (py "E = mc^2"));
      (py "/app/3.pdf", File (py "p = mv")) ].

(** What the toy loader makes of the files of [disk_two_pdfs]. *)
Definition pages_two_pdfs (p : str) : list Document :=
  match disk_two_pdfs !! p with
  | Some (File (c :: r)) => [hit (c :: r)]
  | _ => []
  end.

(** Nothing but the directory of the script. *)
Definition disk_bare : gmap str node := {[ py "/app" := Dir ]}.

(** The first PDF is readable, the second path is a directory, on which
    the toy loader raises. *)
Definition disk_bad_pdf : gmap str node :=
  list_to_map
    [ (py "/app", Dir);
      (py "/app/1.pdf", File (py "E = mc^2"));
      (py "/app/2.pdf", Dir);
      (py "/app/3.pdf", File (py "p = mv")) ].

(** [isinstance(e, Exception)] by the name of the class: of the built-in
    exceptions, all but these three derive from [Exception]. *)
Definition is_Exception (e : exn) : bool :=
  negb (bool_decide (exn_class e ∈ [ py "KeyboardInterrupt"; py "SystemExit";
                                     py "GeneratorExit" ])).

(** The toy libraries with a search that is interrupted from the keyboard. *)
Definition interrupted : Libs unit (list str) := {|
  pdf_load := pdf_load toy;
  split_documents := split_documents toy;
  SentenceTransformerEmbeddings := SentenceTransformerEmbeddings toy;
  from_documents := from_documents toy;
  write_index := write_index toy;
  pickle_dump := pickle_dump toy;
  read_index := read_index toy;
  io_error := io_error toy;
  similarity_search _ _ _ := Raise (Exn (py "KeyboardInterrupt") [])
|}.

(** A toy service behind the front end: on the RAG address it runs the
    [/rag] handler over [disk_old_index] and sends its answer with status
    200; on any other address it sends a fixed object. *)
Definition object_answer : list (str * json) :=
  [ (py "answer", JStr (py "  "));
    (py "result", JList []);
    (py "context", JStr (py "ctx"));
    (py "error", JStr (py "e")) ].

Definition front : Front := {|
  DEBUG_MODE := false;
  datetime_now := 0;
  requests_get url params timeout :=
    if decide (url = API_RAG) then
      match params with
      | [(_, query)] =>
          match (rag BASE toy query (on_disk disk_old_index)).1 with
          | Ok answer =>
              Ok {| status_code := 200;
                    json_body := Ok (JDict (map_to_list (JStr <$> answer)));
                    text := [] |}
          | Raise e => Raise e
          end
      | _ => Raise (Exn (py "ConnectionError") [])
      end
    else
      Ok {| status_code := 200; json_body := Ok (JDict object_answer); text := [] |};
  is_Timeout e := bool_decide (exn_class e = py "Timeout");
  is_ConnectionError e := bool_decide (exn_class e = py "ConnectionError");
  is_JSONDecodeError e := bool_decide (exn_class e = py "JSONDecodeError");
  json_dumps _ := py "{}";
  format_json _ := py "None";
  not_iterable _ := Exn (py "TypeError") (py "not iterable");
  getitem_error _ _ := Exn (py "TypeError") (py "bad index");
  no_keys _ := Exn (py "AttributeError") (py "no attribute 'keys'");
  traceback_format_exc _ := []
|}.

(** A front end whose every request ends in a [ConnectTimeout], which is
    both a [ConnectionError] and a [Timeout]. *)
Definition front_down : Front := {|
  DEBUG_MODE := false;
  datetime_now := 0;
  requests_get _ _ _ := Raise (Exn (py "ConnectTimeout") (py "timed out"));
  is_Timeout e :=
    bool_decide (exn_class e = py "Timeout")
    || bool_decide (exn_class e = py "ConnectTimeout");
  is_ConnectionError e :=
    bool_decide (exn_class e = py "ConnectionError")
    || bool_decide (exn_class e = py "ConnectTimeout");
  is_JSONDecodeError e := bool_decide (exn_class e = py "JSONDecodeError");
  json_dumps _ := py "{}";
  format_json _ := py "None";
  not_iterable _ := Exn (py "TypeError") (py "not iterable");
  getitem_error _ _ := Exn (py "TypeError") (py "bad index");
  no_keys _ := Exn (py "AttributeError") (py "no attribute 'keys'");
  traceback_format_exc _ := []
|}.

(** A session before the first request. *)
Definition session0 : ui := {| session_state := SESSION_DEFAULTS; shown := [] |}.

End Demo.

(** * Properties *)

(** ** Stripping, splitting and joining *)

Lemma lstrip_decompose (s : str) :
  exists a, s = a ++ lstrip s /\ spaces a.
Proof.
  induction s as [|c r IH]; simpl.
  - exists []. split; reflexivity.
  - destruct (isspace c) eqn:Hc.
    + destruct IH as (a & Ha & Hs). exists (c :: a). split.
      * simpl. congruence.
      * unfold spaces in *. simpl. rewrite Hc. exact Hs.
    + exists []. split; reflexivity.
Qed.

Lemma spaces_rev (s : str) : spaces s -> spaces (rev s).
Proof.
  unfold spaces. rewrite !forallb_forall. intros H x Hx.
  apply H. now apply in_rev.
Qed.

Lemma rstrip_decompose (s : str) :
  exists b, s = rstrip s ++ b /\ spaces b.
Proof.
  unfold rstrip. destruct (lstrip_decompose (rev s)) as (a & Ha & Hs).
  exists (rev a). split; [|now apply spaces_rev].
  rewrite <- rev_app_distr, <- Ha. symmetry. apply rev_involutive.
Qed.

Lemma strip_decompose (s : str) :
  exists a b, s = a ++ strip s ++ b /\ spaces a /\ spaces b.
Proof.
  unfold strip.
  destruct (lstrip_decompose s) as (a & Ha & Hsa).
  destruct (rstrip_decompose (lstrip s)) as (b & Hb & Hsb).
  exists a, b. repeat split; try assumption. congruence.
Qed.

Lemma lstrip_fixed (c : N) (s : str) :
  isspace c = false -> lstrip (c :: s) = c :: s.
Proof. intros H. simpl. now rewrite H. Qed.

(** A string that neither starts nor ends with white space is its own
    [strip]. *)
Lemma strip_fixed (s : str) :
  (forall c, head s = Some c -> isspace c = false) ->
  (forall c, last s = Some c -> isspace c = false) ->
  strip s = s.
Proof.
  intros Hh Hl. unfold strip.
  assert (lstrip s = s) as ->.
  { destruct s as [|c r]; [reflexivity|]. apply lstrip_fixed. now apply Hh. }
  unfold rstrip.
  destruct (rev s) as [|c r] eqn:Hr.
  - apply (f_equal (@rev N)) in Hr. rewrite rev_involutive in Hr. now subst.
  - rewrite lstrip_fixed.
    + rewrite <- Hr. apply rev_involutive.
    + apply Hl. apply (f_equal (@rev N)) in Hr. rewrite rev_involutive in Hr.
      subst s. simpl. apply last_snoc.
Qed.

Lemma contains_app (c : N) (s t : str) :
  contains c (s ++ t) = contains c s || contains c t.
Proof. apply existsb_app. Qed.

Lemma contains_spaces (c : N) (s : str) :
  isspace c = false -> spaces s -> contains c s = false.
Proof.
  intros Hc. unfold spaces, contains. induction s as [|d r IH]; simpl; [reflexivity|].
  intros H. apply andb_prop in H as [Hd Hr].
  rewrite (IH Hr), orb_false_r. apply N.eqb_neq. intros ->. congruence.
Qed.

Lemma contains_strip (c : N) (s : str) :
  isspace c = false -> contains c (strip s) = contains c s.
Proof.
  intros Hc. destruct (strip_decompose s) as (a & b & Hs & Ha & Hb).
  rewrite Hs at 2. rewrite !contains_app.
  rewrite (contains_spaces c a Hc Ha), (contains_spaces c b Hc Hb).
  now rewrite orb_false_r.
Qed.

Lemma count_contains (c : N) (s : str) :
  (1 <=? count c s)%nat = contains c s.
Proof.
  unfold count, contains. induction s as [|d r IH]; simpl; [reflexivity|].
  destruct (c =? d); simpl; [reflexivity|exact IH].
Qed.

Lemma search_spaces_l (a s : str) :
  spaces a -> search_latex_command (a ++ s) = search_latex_command s.
Proof.
  unfold spaces. induction a as [|c r IH]; simpl; [reflexivity|].
  intros H. apply andb_prop in H as [Hc Hr]. rewrite (IH Hr).
  destruct (N.eqb_spec c 92) as [->|_]; [discriminate Hc|reflexivity].
Qed.

Lemma space_not_letter (c : N) : isspace c = true -> ascii_letter c = false.
Proof.
  unfold isspace, ascii_letter. intros H.
  repeat (apply orb_prop in H as [H|H]);
    repeat match goal with
           | H : _ && _ = true |- _ => apply andb_prop in H as [? ?]
           | H : (_ <=? _) = true |- _ => apply N.leb_le in H
           | H : (_ =? _) = true |- _ => apply N.eqb_eq in H
           end;
    apply orb_false_intro; apply andb_false_iff;
    rewrite !N.leb_gt; lia.
Qed.

Lemma search_spaces_only (b : str) :
  spaces b -> search_latex_command b = false.
Proof.
  unfold spaces. induction b as [|c r IH]; simpl; [reflexivity|].
  intros H. apply andb_prop in H as [Hc Hr]. rewrite (IH Hr).
  destruct (N.eqb_spec c 92) as [->|_]; [discriminate Hc|reflexivity].
Qed.

Lemma search_spaces_r (s b : str) :
  spaces b -> search_latex_command (s ++ b) = search_latex_command s.
Proof.
  intros Hb. induction s as [|c r IH]; simpl.
  - now apply search_spaces_only.
  - rewrite IH. f_equal. f_equal.
    destruct r as [|d r']; simpl; [|reflexivity].
    destruct b as [|e b']; [reflexivity|].
    apply space_not_letter. unfold spaces in Hb. simpl in Hb.
    now apply andb_prop in Hb as [? _].
Qed.

Lemma search_strip (s : str) :
  search_latex_command (strip s) = search_latex_command s.
Proof.
  destruct (strip_decompose s) as (a & b & Hs & Ha & Hb).
  rewrite Hs at 2. now rewrite search_spaces_l, search_spaces_r.
Qed.

(** The markers are not white space: stripping keeps them. *)
Lemma has_marker_strip (line : str) :
  has_marker (strip line) = has_marker line.
Proof.
  unfold has_marker. rewrite search_strip. f_equal.
  unfold MATH_SYMBOLS. simpl. now rewrite !contains_strip by reflexivity.
Qed.

Lemma split_one_line (sep : N) (s : str) :
  contains sep s = false -> split sep s = [s].
Proof.
  unfold contains. induction s as [|c r IH]; simpl; [reflexivity|].
  intros H. apply orb_false_elim in H as [Hc Hr].
  rewrite N.eqb_sym, Hc. now rewrite (IH Hr).
Qed.

Lemma split_app_sep (sep : N) (p s : str) :
  contains sep p = false -> split sep (p ++ sep :: s) = p :: split sep s.
Proof.
  unfold contains. induction p as [|c r IH]; simpl.
  - now rewrite N.eqb_refl.
  - intros H. apply orb_false_elim in H as [Hc Hr].
    rewrite N.eqb_sym, Hc. now rewrite (IH Hr).
Qed.

(** Splitting the join of lines gives the lines back. *)
Lemma split_join (lines : list str) :
  lines <> [] ->
  Forall (fun l => contains nl l = false) lines ->
  split nl (join [nl] lines) = lines.
Proof.
  induction lines as [|p ps IH]; [congruence|].
  intros _ H. inversion H as [|? ? Hp Hps]; subst.
  destruct ps as [|q qs].
  - simpl. now apply split_one_line.
  - change (join [nl] (p :: q :: qs)) with (p ++ nl :: join [nl] (q :: qs)).
    rewrite split_app_sep by assumption. f_equal. now apply IH.
Qed.

Lemma fold_format_step (lines : list str) (acc : list str) :
  fold_left format_step lines acc = acc ++ fold_left format_step lines [].
Proof.
  revert acc. induction lines as [|l ls IH]; intros acc; simpl.
  - now rewrite app_nil_r.
  - rewrite (IH (format_step acc l)), (IH (format_step [] l)).
    rewrite app_assoc. f_equal.
    unfold format_step. destruct (strip l); [now rewrite app_nil_r|].
    repeat match goal with |- context [if ?b then _ else _] => destruct b end;
      reflexivity.
Qed.

Lemma fold_format_step_app (xs ys : list str) :
  fold_left format_step (xs ++ ys) []
  = fold_left format_step xs [] ++ fold_left format_step ys [].
Proof. rewrite fold_left_app. apply fold_format_step. Qed.

Lemma fold_format_step_cons (x : str) (ys : list str) :
  fold_left format_step (x :: ys) []
  = format_step [] x ++ fold_left format_step ys [].
Proof. simpl. apply fold_format_step. Qed.

(** [format_latex] works line by line. *)
Lemma format_latex_lines (pre post : list str) (line : str) :
  Forall (fun l => contains nl l = false) (pre ++ line :: post) ->
  format_latex (join [nl] (pre ++ line :: post))
  = join [nl] (fold_left format_step pre [] ++ format_step [] line
               ++ fold_left format_step post []).
Proof.
  intros H. unfold format_latex. rewrite split_join; [|now destruct pre|assumption].
  now rewrite fold_format_step_app, fold_format_step_cons.
Qed.

(** ** The formatter *)

Lemma format_step_marked (line : str) :
  has_marker line = true ->
  format_step [] line
  = [ if contains 61 line && (List.length (strip line) <? 100)%nat
      then py "$$" ++ strip line ++ py "$$"
      else py "$" ++ strip line ++ py "$" ].
Proof.
  intros H. rewrite <- has_marker_strip in H.
  rewrite <- (contains_strip 61 line) by reflexivity.
  unfold format_step. destruct (strip line) as [|c r] eqn:Hs; [discriminate H|].
  unfold has_marker in H. rewrite H, count_contains.
  destruct (_ && _); reflexivity.
Qed.

Lemma format_step_plain (line : str) :
  has_marker line = false ->
  format_step [] line = match strip line with [] => [] | s => [s] end.
Proof.
  intros H. rewrite <- has_marker_strip in H.
  unfold format_step. destruct (strip line) as [|c r] eqn:Hs; [reflexivity|].
  unfold has_marker in H. now rewrite H.
Qed.

Lemma display_ne_inline (s : str) :
  py "$$" ++ s ++ py "$$" <> py "$" ++ s ++ py "$".
Proof.
  intros H. apply (f_equal (@List.length N)) in H.
  rewrite !length_app in H. simpl in H. lia.
Qed.

(** C5 (as amended): a line of the input that carries one of the symbols
    [=], [^], [_], U+222B, U+2211, U+2202, U+2206, U+221A or a LaTeX command
    is put out with its leading and trailing white space stripped and
    wrapped: as display math [$$...$$] when it contains [=] and the stripped
    line is shorter than 100 characters, as inline math [$...$] otherwise;
    the two wrappings of a line are never the same string. *)
Theorem format_latex_math_line (pre post : list str) (line : str) :
  Forall (fun l => contains nl l = false) (pre ++ line :: post) ->
  has_marker line = true ->
  format_latex (join [nl] (pre ++ line :: post))
  = join [nl]
      (fold_left format_step pre []
       ++ [ if contains 61 line && (List.length (strip line) <? 100)%nat
            then py "$$" ++ strip line ++ py "$$"
            else py "$" ++ strip line ++ py "$" ]
       ++ fold_left format_step post [])
  /\ py "$$" ++ strip line ++ py "$$" <> py "$" ++ strip line ++ py "$".
Proof.
  intros Hnl Hm. split; [|apply display_ne_inline].
  rewrite format_latex_lines by assumption.
  now rewrite format_step_marked.
Qed.

(** The line ["E = mc^2"] comes out as ["$$E = mc^2$$"]. *)
Lemma format_latex_math_line_witness :
  format_latex (py "E = mc^2") = py "$$E = mc^2$$".
Proof.
  apply (format_latex_math_line [] [] (py "E = mc^2")).
  - repeat constructor.
  - reflexivity.
Defined.

(** C5 as stated fails: a line holding [a=b] followed by 100 blanks has a
    marker and 103 characters, yet it is put out as display math, and
    without its blanks. *)
Lemma format_latex_long_line_display :
  let line := py "a=b" ++ repeat 32 100 in
  has_marker line = true
  /\ contains nl line = false
  /\ ~ (List.length line < 100)%nat
  /\ format_latex line = py "$$a=b$$"
  /\ format_latex line <> py "$" ++ line ++ py "$".
Proof. vm_compute. repeat split; try discriminate. lia. Qed.

(** C6 (as amended): a line of the input without any marker is put out
    with its leading and trailing white space stripped and otherwise
    unchanged (so unchanged when it neither starts nor ends with white
    space); a line that is empty or all white space is dropped. *)
Theorem format_latex_plain_line (pre post : list str) (line : str) :
  Forall (fun l => contains nl l = false) (pre ++ line :: post) ->
  has_marker line = false ->
  format_latex (join [nl] (pre ++ line :: post))
  = join [nl]
      (fold_left format_step pre []
       ++ match strip line with [] => [] | s => [s] end
       ++ fold_left format_step post [])
  /\ ((forall c, head line = Some c -> isspace c = false) ->
      (forall c, last line = Some c -> isspace c = false) ->
      strip line = line).
Proof.
  intros Hnl Hm. split.
  - rewrite format_latex_lines by assumption. now rewrite format_step_plain.
  - apply strip_fixed.
Qed.

(** ["just text"] passes through; the blank lines around it are dropped. *)
Lemma format_latex_plain_line_witness :
  format_latex ([nl] ++ py "just text" ++ [nl] ++ py "  ") = py "just text"
  /\ strip (py "just text") = py "just text".
Proof.
  pose proof (format_latex_plain_line [[]] [py "  "] (py "just text")) as H.
  destruct H as [H1 H2].
  - repeat constructor.
  - reflexivity.
  - split; [exact H1|].
    apply H2; intros c Hc; injection Hc as <-; reflexivity.
Defined.

(** C6 as stated fails: an indented line without markers is not put out
    unchanged. *)
Lemma format_latex_indented_line_changed :
  let line := py "  just text" in
  has_marker line = false
  /\ contains nl line = false
  /\ format_latex line = py "just text"
  /\ format_latex line <> line.
Proof. vm_compute. repeat split; discriminate. Qed.

(** ** The retrieval service *)

Lemma run_bind {A B : Type} (c : M A) (k : A -> M B) (w : world) :
  (c ≫= k) w
  = match c w with
    | (Ok a, w1) => k a w1
    | (Raise e, w1) => (Raise e, w1)
    end.
Proof. reflexivity. Qed.

Lemma run_try_except {A : Type} (body : M A) (handler : exn -> M A) (w : world) :
  try_except body handler w
  = match body w with
    | (Ok a, w1) => (Ok a, w1)
    | (Raise e, w1) => handler e w1
    end.
Proof. reflexivity. Qed.

Lemma join_cons_nonempty (sep p : str) (ps : list str) :
  p <> [] -> join sep (p :: ps) <> [].
Proof.
  intros Hp. destruct ps as [|q qs]; simpl; [exact Hp|].
  destruct p; [congruence|discriminate].
Qed.

Lemma startswith_app (p s : str) : startswith p (p ++ s) = true.
Proof. induction p as [|c r IH]; simpl; [reflexivity|]. now rewrite N.eqb_refl. Qed.

Lemma startswith_app_same (a p s : str) :
  startswith (a ++ p) (a ++ s) = startswith p s.
Proof.
  induction a as [|c r IH]; simpl; [reflexivity|].
  rewrite N.eqb_refl. exact IH.
Qed.

Section Retrieval.
Context {Embeddings VectorStore : Type}.
Variable BASE_DIR : str.
Variable L : Libs Embeddings VectorStore.

Lemma chunk_text_nonempty (i : Z) (d : Document) : chunk_text i d <> [].
Proof. unfold chunk_text. discriminate. Qed.

Lemma chunk_text_head (i : Z) (d : Document) : head (chunk_text i d) = Some 42.
Proof. reflexivity. Qed.

Lemma format_chunks_nonempty (i : Z) (results : list Document) :
  results <> [] -> join SEPARATOR (format_chunks i results) <> [].
Proof.
  destruct results as [|d ds]; [congruence|]. intros _. simpl format_chunks.
  apply join_cons_nonempty, chunk_text_nonempty.
Qed.

Lemma format_chunks_head (i : Z) (results : list Document) :
  results <> [] -> head (join SEPARATOR (format_chunks i results)) = Some 42.
Proof.
  destruct results as [|d ds]; [congruence|]. intros _. simpl format_chunks.
  destruct (format_chunks (i + 1) ds); reflexivity.
Qed.

(** What the [try] block returns when it returns. *)
Lemma retrieve_answer_body_ok (query : str) (k : Z) (w w1 : world) (s : str) :
  retrieve_answer_body BASE_DIR L query k w = (Ok s, w1) ->
  s = NO_RESULTS
  \/ exists results, results <> []
       /\ s = join SEPARATOR (format_chunks 1 results).
Proof.
  unfold retrieve_answer_body. rewrite run_bind.
  destruct (open_vector_store BASE_DIR L query w) as [[vs|e] w2]; [|discriminate].
  rewrite run_bind. unfold lift.
  destruct (similarity_search L vs query k) as [results|e]; [|discriminate].
  destruct results as [|d ds].
  - intros [= <- _]. now left.
  - intros [= <- _]. right. now exists (d :: ds).
Qed.

(** The handler turns any exception of the [try] block into the error
    string, after logging it. *)
Lemma retrieve_answer_run (query : str) (k : Z) (w : world) :
  retrieve_answer BASE_DIR L query k w
  = match retrieve_answer_body BASE_DIR L query k w with
    | (Ok s, w1) => (Ok s, w1)
    | (Raise e, w1) =>
        (Ok (ERROR_PREFIX ++ exn_msg e),
         logged ERROR (ERROR_PREFIX ++ exn_msg e) w1)
    end.
Proof. reflexivity. Qed.

(** An exception while the index is built, loaded or searched ends in the
    error string. *)
Lemma retrieve_answer_open_error (query : str) (k : Z) (w w1 : world) (e : exn) :
  open_vector_store BASE_DIR L query w = (Raise e, w1) ->
  retrieve_answer BASE_DIR L query k w
  = (Ok (ERROR_PREFIX ++ exn_msg e), logged ERROR (ERROR_PREFIX ++ exn_msg e) w1).
Proof.
  intros H. rewrite retrieve_answer_run. unfold retrieve_answer_body.
  now rewrite run_bind, H.
Qed.

Lemma retrieve_answer_search_error
  (query : str) (k : Z) (w w1 : world) (vs : VectorStore) (e : exn) :
  open_vector_store BASE_DIR L query w = (Ok vs, w1) ->
  similarity_search L vs query k = Raise e ->
  retrieve_answer BASE_DIR L query k w
  = (Ok (ERROR_PREFIX ++ exn_msg e), logged ERROR (ERROR_PREFIX ++ exn_msg e) w1).
Proof.
  intros H Hs. rewrite retrieve_answer_run. unfold retrieve_answer_body.
  rewrite run_bind, H, run_bind. unfold lift. now rewrite Hs.
Qed.

(** C9: when the index is opened and the search returns no result,
    [retrieve_answer] returns the fixed message, with a warning in the log
    and no error: the message is not an error string, and it stands in for
    the join of no source blocks, which is the empty string. *)
Theorem retrieve_answer_no_results
  (query : str) (k : Z) (w w1 : world) (vs : VectorStore) :
  open_vector_store BASE_DIR L query w = (Ok vs, w1) ->
  similarity_search L vs query k = Ok [] ->
  retrieve_answer BASE_DIR L query k w
  = (Ok NO_RESULTS, logged WARNING (py "No results found for query") w1)
  /\ NO_RESULTS = py "No relevant information found in the documents."
  /\ startswith ERROR_PREFIX NO_RESULTS = false
  /\ join SEPARATOR (format_chunks 1 []) = []
  /\ NO_RESULTS <> [].
Proof.
  intros Ho Hs. repeat split; try discriminate.
  rewrite retrieve_answer_run. unfold retrieve_answer_body.
  rewrite run_bind, Ho, run_bind. unfold lift. now rewrite Hs.
Qed.

Lemma retrieve_answer_shape (query : str) (k : Z) (w : world) :
  exists s w', retrieve_answer BASE_DIR L query k w = (Ok s, w')
               /\ answer_shape s.
Proof.
  rewrite retrieve_answer_run.
  destruct (retrieve_answer_body BASE_DIR L query k w) as [[s|e] w1] eqn:Hb.
  - exists s, w1. split; [reflexivity|]. right.
    exact (retrieve_answer_body_ok _ _ _ _ _ Hb).
  - eexists _, _. split; [reflexivity|]. left. now exists (exn_msg e).
Qed.

Lemma answer_shape_head (s : str) :
  answer_shape s -> head s = Some 69 \/ s = NO_RESULTS \/ head s = Some 42.
Proof.
  intros [(msg & ->)|[->|(results & Hne & ->)]].
  - left. reflexivity.
  - right. now left.
  - right. right. now apply format_chunks_head.
Qed.

End Retrieval.

(** C9 at work: the toy store holds the chunk ["old"], the query ["zzz"]
    matches nothing. *)
Lemma retrieve_answer_no_results_witness :
  retrieve_answer Demo.BASE Demo.toy (py "zzz") 3 (Demo.on_disk Demo.disk_old_index)
  = (Ok (py "No relevant information found in the documents."),
     logged WARNING (py "No results found for query")
       (logged INFO (py "Loading vector store for query: zzz")
          (Demo.on_disk Demo.disk_old_index))).
Proof.
  apply (retrieve_answer_no_results Demo.BASE Demo.toy (py "zzz") 3
           (Demo.on_disk Demo.disk_old_index)
           (logged INFO (py "Loading vector store for query: zzz")
              (Demo.on_disk Demo.disk_old_index))
           [py "old"]).
  - vm_compute. reflexivity.
  - vm_compute. reflexivity.
Defined.

(** ** The retrieval service and the exceptions outside [Exception] *)

Section RetrievalBase.
Context {Embeddings VectorStore : Type}.
Variable is_Exception : exn -> bool.
Variable BASE_DIR : str.
Variable L : Libs Embeddings VectorStore.

Lemma run_try_except_Exception {A : Type}
  (body : M A) (handler : exn -> M A) (w : world) :
  BaseExc.try_except is_Exception body handler w
  = match body w with
    | (Ok a, w1) => (Ok a, w1)
    | (Raise e, w1) => if is_Exception e then handler e w1 else (Raise e, w1)
    end.
Proof. reflexivity. Qed.

(** The [try] block of [retrieve_answer], stage by stage. *)
Lemma retrieve_answer_body_stages (query : str) (k : Z) (w : world) :
  BaseExc.retrieve_answer_body is_Exception BASE_DIR L query k w
  = match fs w !! VECTOR_STORE_DIR BASE_DIR with
    | Some _ =>
        load_and_search BASE_DIR L query k
          (logged INFO (py "Loading vector store for query: " ++ query) w)
    | None =>
        match BaseExc.create_vector_store is_Exception BASE_DIR L
                (PDF_FILES BASE_DIR)
                (logged WARNING (py "Vector store not found at "
                                 ++ VECTOR_STORE_DIR BASE_DIR
                                 ++ py ". Creating new one...") w) with
        | (Ok _, w1) =>
            load_and_search BASE_DIR L query k
              (logged INFO (py "Loading vector store for query: " ++ query) w1)
        | (Raise e, w1) => (Raise e, w1)
        end
    end.
Proof.
  unfold BaseExc.retrieve_answer_body, BaseExc.open_vector_store,
    load_and_search, os_path_exists, read_fs, logger, lift.
  unfold mbind, M_bind, mret, M_ret.
  destruct (fs w !! VECTOR_STORE_DIR BASE_DIR) as [n|]; cbn [negb].
  - destruct (SentenceTransformerEmbeddings L MODEL_NAME) as [emb|e];
      [|reflexivity].
    destruct (FAISS_load_local L (VECTOR_STORE_DIR BASE_DIR) emb _)
      as [[vs|e] w3]; [|reflexivity].
    destruct (similarity_search L vs query k) as [[|d ds]|e]; reflexivity.
  - destruct (BaseExc.create_vector_store is_Exception BASE_DIR L _ _)
      as [[vs0|e] w1]; [|reflexivity].
    destruct (SentenceTransformerEmbeddings L MODEL_NAME) as [emb|e];
      [|reflexivity].
    destruct (FAISS_load_local L (VECTOR_STORE_DIR BASE_DIR) emb _)
      as [[vs|e] w3]; [|reflexivity].
    destruct (similarity_search L vs query k) as [[|d ds]|e]; reflexivity.
Qed.

Lemma create_vector_store_all_Exception (pdf_files : list str) (w : world) :
  (forall e, is_Exception e = true) ->
  BaseExc.create_vector_store is_Exception BASE_DIR L pdf_files w
  = create_vector_store BASE_DIR L pdf_files w.
Proof.
  intros Hall. unfold BaseExc.create_vector_store, create_vector_store.
  rewrite run_try_except_Exception, run_try_except.
  match goal with |- context [match ?body w with _ => _ end] =>
    destruct (body w) as [[vs|e] w1]
  end; [reflexivity|]. now rewrite Hall.
Qed.

(** Where every exception that can be raised derives from [Exception], the
    program of this module is the program above. *)
Lemma retrieve_answer_all_Exception (query : str) (k : Z) (w : world) :
  (forall e, is_Exception e = true) ->
  BaseExc.retrieve_answer is_Exception BASE_DIR L query k w
  = retrieve_answer BASE_DIR L query k w.
Proof.
  intros Hall.
  assert (BaseExc.retrieve_answer_body is_Exception BASE_DIR L query k w
          = retrieve_answer_body BASE_DIR L query k w) as Hb.
  { unfold BaseExc.retrieve_answer_body, retrieve_answer_body,
      BaseExc.open_vector_store, open_vector_store,
      os_path_exists, read_fs, logger.
    unfold mbind, M_bind, mret, M_ret.
    destruct (fs w !! VECTOR_STORE_DIR BASE_DIR) as [n|]; cbn [negb];
      [reflexivity|].
    now rewrite create_vector_store_all_Exception by exact Hall. }
  unfold BaseExc.retrieve_answer, retrieve_answer.
  rewrite run_try_except_Exception, run_try_except, Hb.
  destruct (retrieve_answer_body BASE_DIR L query k w) as [[s|e] w1];
    [reflexivity|]. now rewrite Hall.
Qed.

(** C3 (as amended): for every query and every [k], [retrieve_answer]
    either returns a string or lets through an exception that does not
    derive from [Exception]; it never raises an exception that derives from
    [Exception].  Its [try] block runs the stages in order (index check and
    build, embedder, load, search, format) and the first stage that raises
    ends the block with its exception.  When the block returns a string,
    that string is returned and nothing more is logged.  When the block
    raises an exception [e] that derives from [Exception], the string
    ["Error retrieving information: " + str(e)] is returned, the log grows
    by exactly one record, that string at level ERROR, and the disk is
    left as the failed stage left it.  When the block raises any other
    exception, that exception leaves [retrieve_answer] and nothing is
    logged for it. *)
Theorem retrieve_answer_catches_Exception (query : str) (k : Z) (w : world) :
  let body := BaseExc.retrieve_answer_body is_Exception BASE_DIR L query k w in
  let r := BaseExc.retrieve_answer is_Exception BASE_DIR L query k w in
  body
  = match fs w !! VECTOR_STORE_DIR BASE_DIR with
    | Some _ =>
        load_and_search BASE_DIR L query k
          (logged INFO (py "Loading vector store for query: " ++ query) w)
    | None =>
        match BaseExc.create_vector_store is_Exception BASE_DIR L
                (PDF_FILES BASE_DIR)
                (logged WARNING (py "Vector store not found at "
                                 ++ VECTOR_STORE_DIR BASE_DIR
                                 ++ py ". Creating new one...") w) with
        | (Ok _, w1) =>
            load_and_search BASE_DIR L query k
              (logged INFO (py "Loading vector store for query: " ++ query) w1)
        | (Raise e, w1) => (Raise e, w1)
        end
    end
  /\ match body with
     | (Ok s, w1) => r = (Ok s, w1)
     | (Raise e, w1) =>
         if is_Exception e then
           r.1 = Ok (ERROR_PREFIX ++ exn_msg e)
           /\ fs r.2 = fs w1
           /\ history r.2 = history w1
           /\ log r.2 = log w1 ++ [(ERROR, ERROR_PREFIX ++ exn_msg e)]
         else r = (Raise e, w1)
     end
  /\ match r.1 with
     | Ok s => True
     | Raise e => is_Exception e = false
     end.
Proof.
  intros body r. split; [apply retrieve_answer_body_stages|].
  subst r. unfold BaseExc.retrieve_answer.
  rewrite run_try_except_Exception. fold body.
  destruct body as [[s|e] w1]; [now split|].
  destruct (is_Exception e) eqn:He.
  - rewrite run_bind. unfold logger. cbn [mret M_ret fst snd fs history log logged].
    now repeat split.
  - split; [reflexivity|exact He].
Qed.
End RetrievalBase.

(** C3 as stated fails: over a complete index, a search that is
    interrupted from the keyboard raises [KeyboardInterrupt], which does not
    derive from [Exception]; the clause of line 152 does not catch it, so
    [retrieve_answer] returns no string: the exception leaves it, and no
    ERROR record is logged. *)
Lemma retrieve_answer_interrupted :
  let r := BaseExc.retrieve_answer Demo.is_Exception Demo.BASE Demo.interrupted
             (py "old") 3 (Demo.on_disk Demo.disk_old_index) in
  Demo.is_Exception (Exn (py "KeyboardInterrupt") []) = false
  /\ Demo.is_Exception (Exn (py "ValueError") []) = true
  /\ r.1 = Raise (Exn (py "KeyboardInterrupt") [])
  /\ (forall s, r.1 <> Ok s)
  /\ log r.2 = [(INFO, py "Loading vector store for query: old")].
Proof.
  intros r. repeat split; try (vm_compute; reflexivity).
  intros s. vm_compute. discriminate.
Qed.

(** ** The document loader *)

Section Loading.
Context {Embeddings VectorStore : Type}.
Variable L : Libs Embeddings VectorStore.

(** A loader that raises ends the loop with its exception. *)
Lemma load_pdfs_loader_error
  (pdf_path : str) (rest : list str) (all_docs : list Document)
  (w : world) (n : node) (e : exn) :
  fs w !! pdf_path = Some n ->
  pdf_load L pdf_path n = Raise e ->
  load_pdfs L (pdf_path :: rest) all_docs w
  = (Raise e, logged INFO (py "Loading PDF: " ++ pdf_path) w).
Proof.
  intros Hn He. simpl load_pdfs. rewrite run_bind.
  unfold os_path_exists. rewrite run_bind. unfold read_fs. cbn [mret M_ret].
  rewrite Hn. cbn [negb]. rewrite run_bind. unfold logger at 1.
  rewrite run_bind. unfold PyPDFLoader_load. rewrite run_bind.
  unfold read_fs. cbn [fs logged]. rewrite Hn. unfold lift. now rewrite He.
Qed.

Lemma load_pdfs_run
  (pages : str -> list Document) (pdf_files : list str) :
  forall (all_docs : list Document) (w : world),
  Forall (fun p => forall n, fs w !! p = Some n -> pdf_load L p n = Ok (pages p))
         pdf_files ->
  exists w',
    load_pdfs L pdf_files all_docs w
    = (Ok (all_docs ++ loaded_pages (fs w) pages pdf_files), w')
    /\ fs w' = fs w
    /\ history w' = history w
    /\ log w' = log w ++ List.concat (List.map (load_log (fs w) pages) pdf_files).
Proof.
  induction pdf_files as [|p rest IH]; intros all_docs w H.
  - exists w. unfold loaded_pages. simpl. now rewrite !app_nil_r.
  - inversion H as [|? ? Hp Hrest]; subst.
    simpl load_pdfs. rewrite run_bind.
    unfold os_path_exists. rewrite run_bind. unfold read_fs. cbn [mret M_ret].
    unfold loaded_pages, load_log. simpl List.map. simpl List.concat.
    fold (loaded_pages (fs w) pages rest).
    destruct (fs w !! p) as [n|] eqn:Hn; cbn [negb].
    + rewrite run_bind. unfold logger at 1. rewrite run_bind.
      unfold PyPDFLoader_load. rewrite run_bind. unfold read_fs.
      cbn [fs logged]. rewrite Hn. unfold lift. rewrite (Hp n eq_refl).
      rewrite run_bind. unfold logger at 1.
      match goal with |- context [load_pdfs L rest ?a ?w0] =>
        destruct (IH a w0) as (w' & Hrun & Hfs & Hh & Hl); [exact Hrest|]
      end.
      exists w'. cbn [fs history log logged] in *.
      rewrite Hrun, Hfs, Hh, Hl. repeat split; try reflexivity.
      * now rewrite <- app_assoc.
      * rewrite <- !app_assoc. reflexivity.
    + rewrite run_bind. unfold logger at 1.
      match goal with |- context [load_pdfs L rest ?a ?w0] =>
        destruct (IH a w0) as (w' & Hrun & Hfs & Hh & Hl); [exact Hrest|]
      end.
      exists w'. cbn [fs history log logged] in *.
      rewrite Hrun, Hfs, Hh, Hl. repeat split; try reflexivity.
      rewrite <- !app_assoc. reflexivity.
Qed.

(** C8 (as amended): provided the PDF loader succeeds on every file that
    exists, loading the configured paths skips each missing file with one
    ERROR record in the log, collects the pages of the existing files in the
    order of the paths, returns them when there is at least one, and fails
    with the no-documents error exactly when there is none.  The disk is
    untouched. *)
Theorem load_documents_spec
  (pages : str -> list Document) (pdf_files : list str) (w : world) :
  Forall (fun p => forall n, fs w !! p = Some n -> pdf_load L p n = Ok (pages p))
         pdf_files ->
  exists w',
    load_documents L pdf_files w
    = (match loaded_pages (fs w) pages pdf_files with
       | [] => Raise NO_DOCUMENTS
       | all_docs => Ok all_docs
       end, w')
    /\ fs w' = fs w
    /\ history w' = history w
    /\ log w' = log w ++ List.concat (List.map (load_log (fs w) pages) pdf_files).
Proof.
  intros H. destruct (load_pdfs_run pages pdf_files [] w H) as (w' & Hrun & Hw).
  exists w'. split; [|exact Hw].
  unfold load_documents. rewrite run_bind, Hrun. simpl app.
  destruct (loaded_pages (fs w) pages pdf_files); reflexivity.
Qed.
End Loading.

(** C8 as stated fails: [1.pdf] exists and the loader gives one page
    for it, [3.pdf] exists too, but the loader raises on [2.pdf], which
    exists as well (it is a directory).  Nothing catches that exception
    inside the loop (lines 38-39): the whole batch fails with it, not with
    the no-documents error, although a page had been loaded by then, and
    [3.pdf] is never read. *)
Lemma load_documents_unreadable_pdf :
  let w := Demo.on_disk Demo.disk_bad_pdf in
  let r := load_documents Demo.toy (PDF_FILES Demo.BASE) w in
  fs w !! py "/app/1.pdf" = Some (File (py "E = mc^2"))
  /\ pdf_load Demo.toy (py "/app/1.pdf") (File (py "E = mc^2"))
     = Ok [Demo.hit (py "E = mc^2")]
  /\ fs w !! py "/app/2.pdf" = Some Dir
  /\ fs w !! py "/app/3.pdf" = Some (File (py "p = mv"))
  /\ r.1 = Raise (Exn (py "IsADirectoryError") (py "/app/2.pdf"))
  /\ r.1 <> Raise NO_DOCUMENTS
  /\ log r.2 = [ (INFO, py "Loading PDF: /app/1.pdf");
                 (INFO, py "Loaded 1 pages from /app/1.pdf");
                 (INFO, py "Loading PDF: /app/2.pdf") ].
Proof.
  intros w r. repeat split; try (vm_compute; reflexivity).
  vm_compute. discriminate.
Qed.

(** C8 as amended at work: of the four configured paths, [2.pdf] and [4.pdf] are
    missing; the pages of the other two are loaded. *)
Lemma load_documents_spec_witness :
  exists w',
    load_documents Demo.toy (PDF_FILES Demo.BASE) (Demo.on_disk Demo.disk_two_pdfs)
    = (Ok [Demo.hit (py "E = mc^2"); Demo.hit (py "p = mv")], w')
    /\ fs w' = Demo.disk_two_pdfs
    /\ history w' = []
    /\ log w' =
       [ (INFO, py "Loading PDF: /app/1.pdf");
         (INFO, py "Loaded 1 pages from /app/1.pdf");
         (ERROR, py "PDF file not found: /app/2.pdf");
         (INFO, py "Loading PDF: /app/3.pdf");
         (INFO, py "Loaded 1 pages from /app/3.pdf");
         (ERROR, py "PDF file not found: /app/4.pdf") ].
Proof.
  assert (Forall (fun p => forall n,
            fs (Demo.on_disk Demo.disk_two_pdfs) !! p = Some n ->
            pdf_load Demo.toy p n = Ok (Demo.pages_two_pdfs p))
          (PDF_FILES Demo.BASE)) as H.
  { repeat constructor; intros n; vm_compute; intros [= <-]; reflexivity. }
  exact (load_documents_spec Demo.toy Demo.pages_two_pdfs (PDF_FILES Demo.BASE)
           (Demo.on_disk Demo.disk_two_pdfs) H).
Defined.

(** ** The chunker

    The splitting itself is the library's; the program fixes its parameters
    and hands it every loaded page. *)

Section Chunking.
Context {Embeddings VectorStore : Type}.
Variable BASE_DIR : str.
Variable L : Libs Embeddings VectorStore.

Lemma create_vector_store_splitter_error
  (pdf_files : list str) (w w1 : world) (all_docs : list Document) (e : exn) :
  load_documents L pdf_files w = (Ok all_docs, w1) ->
  split_documents L 800 100 [[nl; nl]; [nl]; py ". "; py " "; []] all_docs
  = Raise e ->
  create_vector_store BASE_DIR L pdf_files w
  = (Raise e, logged ERROR (py "Error creating vector store: " ++ exn_msg e) w1).
Proof.
  intros Hl Hs. unfold create_vector_store.
  rewrite run_try_except, run_bind, Hl, run_bind.
  unfold lift, chunk_size, chunk_overlap, separators. now rewrite Hs.
Qed.
End Chunking.

(** ** Paths *)

Lemma os_path_join_relative (a b : str) :
  startswith (py "/") b = false -> os_path_join a b = slashed a ++ b.
Proof.
  intros H. unfold os_path_join, slashed. rewrite H.
  destruct (last a) as [c|]; [|reflexivity].
  destruct (c =? 47); [reflexivity|]. now rewrite <- app_assoc.
Qed.

Lemma VECTOR_STORE_DIR_eq (B : str) :
  VECTOR_STORE_DIR B = slashed B ++ py "quantum_index".
Proof. unfold VECTOR_STORE_DIR. now apply os_path_join_relative. Qed.

Lemma VECTOR_STORE_DIR_last (B : str) : last (VECTOR_STORE_DIR B) = Some 120.
Proof. rewrite VECTOR_STORE_DIR_eq, last_app. reflexivity. Qed.

Lemma index_file_path (B name : str) :
  startswith (py "/") name = false ->
  os_path_join (VECTOR_STORE_DIR B) name = VECTOR_STORE_DIR B ++ py "/" ++ name.
Proof.
  intros H. unfold os_path_join. now rewrite H, VECTOR_STORE_DIR_last.
Qed.

Lemma index_faiss_eq (B : str) :
  index_faiss B = VECTOR_STORE_DIR B ++ py "/index.faiss".
Proof. unfold index_faiss. now rewrite index_file_path. Qed.

Lemma index_pkl_eq (B : str) :
  index_pkl B = VECTOR_STORE_DIR B ++ py "/index.pkl".
Proof. unfold index_pkl. now rewrite index_file_path. Qed.

Lemma app_ne_self (a b : str) : b <> [] -> a ++ b <> a.
Proof.
  intros Hb H. apply Hb. apply (app_inv_head a). now rewrite app_nil_r.
Qed.

Lemma index_faiss_ne_dir (B : str) : index_faiss B <> VECTOR_STORE_DIR B.
Proof. rewrite index_faiss_eq. now apply app_ne_self. Qed.

Lemma index_pkl_ne_dir (B : str) : index_pkl B <> VECTOR_STORE_DIR B.
Proof. rewrite index_pkl_eq. now apply app_ne_self. Qed.

Lemma index_faiss_ne_pkl (B : str) : index_faiss B <> index_pkl B.
Proof.
  rewrite index_faiss_eq, index_pkl_eq. intros H.
  apply app_inv_head in H. discriminate H.
Qed.

Lemma within_dir (B : str) : within (VECTOR_STORE_DIR B) (VECTOR_STORE_DIR B).
Proof. now left. Qed.

Lemma within_index_faiss (B : str) : within (VECTOR_STORE_DIR B) (index_faiss B).
Proof.
  right. rewrite index_faiss_eq.
  change (py "/index.faiss") with (py "/" ++ py "index.faiss").
  rewrite app_assoc. apply startswith_app.
Qed.

Lemma within_index_pkl (B : str) : within (VECTOR_STORE_DIR B) (index_pkl B).
Proof.
  right. rewrite index_pkl_eq.
  change (py "/index.pkl") with (py "/" ++ py "index.pkl").
  rewrite app_assoc. apply startswith_app.
Qed.

(** Nothing of a removed tree is left. *)
Lemma rmtree_lookup (d q : str) (f : gmap str node) :
  within d q -> filter (fun kv => ¬ within d kv.1) f !! q = None.
Proof.
  intros H. apply map_lookup_filter_None. right. intros x _ Hn. now apply Hn.
Qed.

(** ** Saving the index *)

Lemma os_makedirs_run (p : str) (w : world) :
  (forall c, fs w !! p <> Some (File c)) ->
  os_makedirs p w
  = (Ok tt, match fs w !! p with
            | None => wrote (<[p := Dir]> (fs w)) w
            | Some _ => w
            end).
Proof.
  intros H. unfold os_makedirs. rewrite run_bind. unfold read_fs.
  destruct (fs w !! p) as [[|c]|] eqn:Hp; try reflexivity.
  now destruct (H c).
Qed.

Section Saving.
Context {Embeddings VectorStore : Type}.
Variable BASE_DIR : str.
Variable L : Libs Embeddings VectorStore.

Lemma write_file_run (p c : str) (w : world) :
  fs w !! p <> Some Dir ->
  write_file L p c w = (Ok tt, wrote (<[p := File c]> (fs w)) w).
Proof.
  intros H. unfold write_file. rewrite run_bind. unfold read_fs.
  destruct (fs w !! p) as [[|c']|] eqn:Hp; try reflexivity.
  now destruct H.
Qed.

Lemma write_file_ok (p c : str) (w w' : world) :
  write_file L p c w = (Ok tt, w') -> w' = wrote (<[p := File c]> (fs w)) w.
Proof.
  unfold write_file. rewrite run_bind. unfold read_fs.
  destruct (fs w !! p) as [[|c']|]; intros [=]; congruence.
Qed.

Lemma with_index_dir_lookup (f : gmap str node) (q : str) :
  q <> VECTOR_STORE_DIR BASE_DIR -> with_index_dir BASE_DIR f !! q = f !! q.
Proof.
  intros H. unfold with_index_dir.
  destruct (f !! VECTOR_STORE_DIR BASE_DIR); [reflexivity|].
  now rewrite lookup_insert_ne.
Qed.

Lemma with_index_dir_dir (f : gmap str node) :
  (forall c, f !! VECTOR_STORE_DIR BASE_DIR <> Some (File c)) ->
  with_index_dir BASE_DIR f !! VECTOR_STORE_DIR BASE_DIR = Some Dir.
Proof.
  intros H. unfold with_index_dir.
  destruct (f !! VECTOR_STORE_DIR BASE_DIR) as [[|c]|] eqn:Hd.
  - exact Hd.
  - now destruct (H c).
  - apply lookup_insert_eq.
Qed.

(** C1 (as amended): saving creates the index directory when it is absent
    and then writes the index data file and the index metadata file straight
    into that directory, in this order; no other path is written and nothing
    is moved.  The disk goes through: the directory created (when it was
    absent), the new data file beside whatever metadata file was there, both
    new files.  After the save both files hold the new index. *)
Theorem save_vector_store_in_place (vector_store : VectorStore) (w : world) :
  (forall c, fs w !! VECTOR_STORE_DIR BASE_DIR <> Some (File c)) ->
  fs w !! index_faiss BASE_DIR <> Some Dir ->
  fs w !! index_pkl BASE_DIR <> Some Dir ->
  let f0 := with_index_dir BASE_DIR (fs w) in
  let f1 := <[index_faiss BASE_DIR := File (write_index L vector_store)]> f0 in
  let f2 := <[index_pkl BASE_DIR := File (pickle_dump L vector_store)]> f1 in
  exists w',
    save_vector_store BASE_DIR L vector_store w = (Ok tt, w')
    /\ fs w' = f2
    /\ history w'
       = history w
         ++ match fs w !! VECTOR_STORE_DIR BASE_DIR with
            | None => [f0]
            | Some _ => []
            end
         ++ [f1; f2]
    /\ log w' = log w ++ [(INFO, py "Vector store saved to " ++ VECTOR_STORE_DIR BASE_DIR)]
    /\ f1 !! index_faiss BASE_DIR = Some (File (write_index L vector_store))
    /\ f1 !! index_pkl BASE_DIR = fs w !! index_pkl BASE_DIR
    /\ f2 !! index_faiss BASE_DIR = Some (File (write_index L vector_store))
    /\ f2 !! index_pkl BASE_DIR = Some (File (pickle_dump L vector_store)).
Proof.
  intros Hd Hf Hp f0 f1 f2.
  pose proof (index_faiss_ne_dir BASE_DIR) as Nfd.
  pose proof (index_pkl_ne_dir BASE_DIR) as Npd.
  pose proof (index_faiss_ne_pkl BASE_DIR) as Nfp.
  assert (f0 !! VECTOR_STORE_DIR BASE_DIR = Some Dir) as H0
    by now apply with_index_dir_dir.
  assert (f0 !! index_faiss BASE_DIR <> Some Dir) as H0f
    by (unfold f0; now rewrite with_index_dir_lookup).
  assert (f1 !! index_pkl BASE_DIR = fs w !! index_pkl BASE_DIR) as H1p.
  { unfold f1. rewrite lookup_insert_ne by exact Nfp.
    unfold f0. now rewrite with_index_dir_lookup. }
  set (w0 := match fs w !! VECTOR_STORE_DIR BASE_DIR with
             | None => wrote f0 w
             | Some _ => w
             end).
  assert (fs w0 = f0) as Hw0.
  { unfold w0, f0, with_index_dir.
    destruct (fs w !! VECTOR_STORE_DIR BASE_DIR); reflexivity. }
  assert (os_makedirs (VECTOR_STORE_DIR BASE_DIR) w = (Ok tt, w0)) as R0.
  { rewrite os_makedirs_run by exact Hd. unfold w0, f0, with_index_dir.
    destruct (fs w !! VECTOR_STORE_DIR BASE_DIR); reflexivity. }
  assert (os_makedirs (VECTOR_STORE_DIR BASE_DIR) w0 = (Ok tt, w0)) as R1.
  { rewrite os_makedirs_run; rewrite Hw0, H0; [reflexivity|discriminate]. }
  exists (logged INFO (py "Vector store saved to " ++ VECTOR_STORE_DIR BASE_DIR)
            (wrote f2 (wrote f1 w0))).
  split.
  { unfold save_vector_store. rewrite run_bind, R0, run_bind.
    unfold FAISS_save_local. rewrite run_bind, R1, run_bind.
    fold (index_faiss BASE_DIR). fold (index_pkl BASE_DIR).
    rewrite write_file_run by (rewrite Hw0; exact H0f).
    rewrite Hw0. fold f1.
    rewrite write_file_run by (cbn [fs wrote]; rewrite H1p; exact Hp).
    reflexivity. }
  repeat split.
  - cbn [history logged wrote]. unfold w0.
    destruct (fs w !! VECTOR_STORE_DIR BASE_DIR); cbn [history wrote];
      now rewrite <- !app_assoc.
  - cbn [log logged wrote]. unfold w0.
    now destruct (fs w !! VECTOR_STORE_DIR BASE_DIR).
  - apply lookup_insert_eq.
  - exact H1p.
  - unfold f2. rewrite lookup_insert_ne by (intros E; now apply Nfp).
    apply lookup_insert_eq.
  - apply lookup_insert_eq.
Qed.
End Saving.

(** C1 (as amended) at work: the store [["new"]] saved over the complete
    index of the store [["old"]]. *)
Lemma save_vector_store_in_place_witness :
  exists w',
    save_vector_store Demo.BASE Demo.toy [py "new"] (Demo.on_disk Demo.disk_old_index)
    = (Ok tt, w')
    /\ fs w' !! py "/app/quantum_index/index.faiss" = Some (File (py "new"))
    /\ fs w' !! py "/app/quantum_index/index.pkl" = Some (File (py "new")).
Proof.
  destruct (save_vector_store_in_place Demo.BASE Demo.toy [py "new"]
              (Demo.on_disk Demo.disk_old_index))
    as (w' & Hrun & Hfs & _ & _ & _ & _ & Hf & Hp).
  - intros c. vm_compute. discriminate.
  - vm_compute. discriminate.
  - vm_compute. discriminate.
  - exists w'. rewrite Hfs. split; [exact Hrun|]. split; [exact Hf|exact Hp].
Defined.

(** C1 as stated fails: while the store [["new"]] is saved over the
    complete index of the store [["old"]], the live index directory is
    written in place, no path outside it appears, and the disk passes
    through a state where the data file is new and the metadata file is
    still the old one. *)
Lemma save_overwrites_in_place :
  let w := Demo.on_disk Demo.disk_old_index in
  let w' := (save_vector_store Demo.BASE Demo.toy [py "new"] w).2 in
  fs w !! py "/app/quantum_index/index.faiss" = Some (File (py "old"))
  /\ fs w !! py "/app/quantum_index/index.pkl" = Some (File (py "old"))
  /\ Forall (fun f => dom f = dom (fs w)) (history w')
  /\ exists f,
       In f (history w')
       /\ f !! py "/app/quantum_index/index.faiss" = Some (File (py "new"))
       /\ f !! py "/app/quantum_index/index.pkl" = Some (File (py "old")).
Proof.
  cbv zeta. split; [vm_compute; reflexivity|]. split; [vm_compute; reflexivity|].
  split.
  - vm_compute history. repeat constructor; vm_compute; reflexivity.
  - eexists. split; [vm_compute history; left; reflexivity|].
    split; vm_compute; reflexivity.
Qed.

(** ** The index check of the query path *)

Section IndexCheck.
Context {Embeddings VectorStore : Type}.
Variable BASE_DIR : str.
Variable L : Libs Embeddings VectorStore.

(** With the directory present the query path goes to loading, whatever
    the directory holds. *)
Lemma open_vector_store_dir_present (query : str) (w : world) (n : node) :
  fs w !! VECTOR_STORE_DIR BASE_DIR = Some n ->
  open_vector_store BASE_DIR L query w
  = (embeddings ← lift (SentenceTransformerEmbeddings L MODEL_NAME);
     FAISS_load_local L (VECTOR_STORE_DIR BASE_DIR) embeddings)
      (logged INFO (py "Loading vector store for query: " ++ query) w).
Proof.
  intros H. unfold open_vector_store. rewrite run_bind.
  unfold os_path_exists. rewrite run_bind. unfold read_fs. cbn [mret M_ret].
  rewrite H. cbn [negb]. reflexivity.
Qed.

(** With the directory absent it builds first. *)
Lemma open_vector_store_dir_absent (query : str) (w : world) :
  fs w !! VECTOR_STORE_DIR BASE_DIR = None ->
  open_vector_store BASE_DIR L query w
  = match create_vector_store BASE_DIR L (PDF_FILES BASE_DIR)
            (logged WARNING (py "Vector store not found at "
                             ++ VECTOR_STORE_DIR BASE_DIR
                             ++ py ". Creating new one...") w) with
    | (Ok _, w1) =>
        (embeddings ← lift (SentenceTransformerEmbeddings L MODEL_NAME);
         FAISS_load_local L (VECTOR_STORE_DIR BASE_DIR) embeddings)
          (logged INFO (py "Loading vector store for query: " ++ query) w1)
    | (Raise e, w1) => (Raise e, w1)
    end.
Proof.
  intros H. unfold open_vector_store. rewrite run_bind.
  unfold os_path_exists. rewrite run_bind. unfold read_fs. cbn [mret M_ret].
  rewrite H. cbn [negb]. unfold mbind, M_bind, mret, M_ret, logger.
  destruct (create_vector_store _ _ _ _) as [[vs|e] w1]; reflexivity.
Qed.

Lemma FAISS_load_local_no_data_file (folder : str) (emb : Embeddings) (w : world) :
  fs w !! os_path_join folder (py "index.faiss") = None ->
  FAISS_load_local L folder emb w
  = (Raise (io_error L (os_path_join folder (py "index.faiss"))), w).
Proof.
  intros H. unfold FAISS_load_local. rewrite run_bind. unfold read_fs.
  now rewrite H.
Qed.

(** A directory without the index data file: no build, the load fails and
    the query ends in the error string. *)
Lemma retrieve_answer_dir_without_data_file
  (query : str) (k : Z) (w : world) (n : node) (emb : Embeddings) :
  fs w !! VECTOR_STORE_DIR BASE_DIR = Some n ->
  fs w !! index_faiss BASE_DIR = None ->
  SentenceTransformerEmbeddings L MODEL_NAME = Ok emb ->
  let error_msg := ERROR_PREFIX ++ exn_msg (io_error L (index_faiss BASE_DIR)) in
  retrieve_answer BASE_DIR L query k w
  = (Ok error_msg,
     logged ERROR error_msg
       (logged INFO (py "Loading vector store for query: " ++ query) w)).
Proof.
  intros Hd Hf He error_msg.
  apply retrieve_answer_open_error.
  rewrite (open_vector_store_dir_present query w n Hd), run_bind.
  unfold lift. rewrite He. now apply FAISS_load_local_no_data_file.
Qed.
End IndexCheck.

(** C4, the code at an index directory that holds neither required file:
    [vector_store_exists] says there is no index, yet the query path does
    not build one.  It goes on to load, writes nothing to the disk, and
    answers with the error string of the failed load. *)
Theorem retrieve_answer_checks_directory_only :
  let w := Demo.on_disk Demo.disk_empty_dir in
  let error_msg :=
    py "Error retrieving information: could not open /app/quantum_index/index.faiss" in
  vector_store_exists Demo.BASE w = (Ok false, w)
  /\ retrieve_answer Demo.BASE Demo.toy (py "E") 3 w
     = (Ok error_msg,
        logged ERROR error_msg
          (logged INFO (py "Loading vector store for query: E") w))
  /\ history (retrieve_answer Demo.BASE Demo.toy (py "E") 3 w).2 = [].
Proof. vm_compute. repeat split; reflexivity. Qed.

(** The same query on the same PDFs without the directory: the index is
    built and the query is answered. *)
Example retrieve_answer_builds_without_directory :
  let w := Demo.on_disk Demo.disk_pdfs in
  (retrieve_answer Demo.BASE Demo.toy (py "E") 3 w).1
  = Ok (py "**Source 1** (Page 0):" ++ [nl] ++ py "$$E = mc^2$$")
  /\ vector_store_exists Demo.BASE (retrieve_answer Demo.BASE Demo.toy (py "E") 3 w).2
     = (Ok true, (retrieve_answer Demo.BASE Demo.toy (py "E") 3 w).2).
Proof. vm_compute. split; reflexivity. Qed.

(** ** Rebuilding the index *)

Lemma bind_ok_inv {A B : Type} (c : M A) (k : A -> M B) (w w' : world) (b : B) :
  (c ≫= k) w = (Ok b, w') ->
  exists a w1, c w = (Ok a, w1) /\ k a w1 = (Ok b, w').
Proof.
  rewrite run_bind. destruct (c w) as [[a|e] w1]; [eauto|discriminate].
Qed.

(** *** The history of the disk only grows *)

Create HintDb history.

Lemma extends_mret {A : Type} (a : A) : extends_history (mret a : M A).
Proof. intros w w' r [= <- <-]. exists []. now rewrite app_nil_r. Qed.

Lemma extends_raise {A : Type} (e : exn) : extends_history (raise e : M A).
Proof. intros w w' r [= <- <-]. exists []. now rewrite app_nil_r. Qed.

Lemma extends_lift {A : Type} (x : result A) : extends_history (lift x).
Proof. intros w w' r [= <- <-]. exists []. now rewrite app_nil_r. Qed.

Lemma extends_logger (lv : level) (msg : str) : extends_history (logger lv msg).
Proof. intros w w' r [= <- <-]. exists []. simpl. now rewrite app_nil_r. Qed.

Lemma extends_read_fs : extends_history read_fs.
Proof. intros w w' r [= <- <-]. exists []. now rewrite app_nil_r. Qed.

Lemma extends_write_fs (f : gmap str node) : extends_history (write_fs f).
Proof. intros w w' r [= <- <-]. now exists [f]. Qed.

Lemma extends_bind {A B : Type} (c : M A) (k : A -> M B) :
  extends_history c -> (forall a, extends_history (k a)) ->
  extends_history (c ≫= k).
Proof.
  intros Hc Hk w w' r. rewrite run_bind.
  destruct (c w) as [[a|e] w1] eqn:Hcw; destruct (Hc _ _ _ Hcw) as (l1 & H1).
  - intros Hka. destruct (Hk a _ _ _ Hka) as (l2 & H2).
    exists (l1 ++ l2). now rewrite H2, H1, app_assoc.
  - intros [= <- <-]. now exists l1.
Qed.

Lemma extends_try_except {A : Type} (body : M A) (handler : exn -> M A) :
  extends_history body -> (forall e, extends_history (handler e)) ->
  extends_history (try_except body handler).
Proof.
  intros Hc Hk w w' r. rewrite run_try_except.
  destruct (body w) as [[a|e] w1] eqn:Hcw; destruct (Hc _ _ _ Hcw) as (l1 & H1).
  - intros [= <- <-]. now exists l1.
  - intros Hka. destruct (Hk e _ _ _ Hka) as (l2 & H2).
    exists (l1 ++ l2). now rewrite H2, H1, app_assoc.
Qed.

#[local] Hint Resolve extends_mret extends_raise extends_lift extends_logger
  extends_read_fs extends_write_fs : history.

(** Splits a computation along its binds, handlers and case distinctions. *)
Ltac extends :=
  repeat first
    [ apply extends_bind; [|intros ?]
    | apply extends_try_except; [|intros ?]
    | match goal with
      | |- extends_history (match ?x with _ => _ end) => destruct x
      | |- extends_history (if ?x then _ else _) => destruct x
      end
    | solve [auto with history] ].

Lemma extends_os_path_exists (p : str) : extends_history (os_path_exists p).
Proof. unfold os_path_exists. extends. Qed.

Lemma extends_os_makedirs (p : str) : extends_history (os_makedirs p).
Proof. unfold os_makedirs. extends. Qed.

Lemma extends_os_path_getsize (p : str) : extends_history (os_path_getsize p).
Proof. unfold os_path_getsize. extends. Qed.

#[local] Hint Resolve extends_os_path_exists extends_os_makedirs
  extends_os_path_getsize : history.

Section Rebuild.
Context {Embeddings VectorStore : Type}.
Variable BASE_DIR : str.
Variable L : Libs Embeddings VectorStore.

Lemma extends_write_file (p c : str) : extends_history (write_file L p c).
Proof. unfold write_file. extends. Qed.

Lemma extends_PyPDFLoader_load (p : str) : extends_history (PyPDFLoader_load L p).
Proof. unfold PyPDFLoader_load. extends. Qed.

#[local] Hint Resolve extends_write_file extends_PyPDFLoader_load : history.

Lemma extends_load_pdfs (pdf_files : list str) (all_docs : list Document) :
  extends_history (load_pdfs L pdf_files all_docs).
Proof.
  revert all_docs. induction pdf_files as [|p rest IH]; intros all_docs;
    simpl; extends.
Qed.

#[local] Hint Resolve extends_load_pdfs : history.

Lemma extends_create_vector_store (pdf_files : list str) :
  extends_history (create_vector_store BASE_DIR L pdf_files).
Proof.
  unfold create_vector_store, load_documents, save_vector_store,
    FAISS_save_local.
  extends.
Qed.

Lemma extends_list_sizes (pdfs : list str) : extends_history (list_sizes pdfs).
Proof. induction pdfs as [|p rest IH]; simpl; extends. Qed.

(** *** What a completed build leaves on the disk *)

Lemma os_makedirs_ok (p : str) (w w' : world) :
  os_makedirs p w = (Ok tt, w') -> fs w' !! p = Some Dir.
Proof.
  unfold os_makedirs. rewrite run_bind. unfold read_fs.
  destruct (fs w !! p) as [[|c]|] eqn:Hp.
  - intros [= <-]. exact Hp.
  - discriminate.
  - intros [= <-]. apply lookup_insert_eq.
Qed.

Lemma save_vector_store_ok (vector_store : VectorStore) (w w' : world) :
  save_vector_store BASE_DIR L vector_store w = (Ok tt, w') ->
  fs w' !! VECTOR_STORE_DIR BASE_DIR = Some Dir
  /\ fs w' !! index_faiss BASE_DIR = Some (File (write_index L vector_store))
  /\ fs w' !! index_pkl BASE_DIR = Some (File (pickle_dump L vector_store)).
Proof.
  unfold save_vector_store, FAISS_save_local.
  fold (index_faiss BASE_DIR). fold (index_pkl BASE_DIR).
  intros H.
  apply bind_ok_inv in H as ([] & w0 & _ & H).
  apply bind_ok_inv in H as ([] & w3 & H & Hlog).
  apply bind_ok_inv in H as ([] & w1 & Hmk & H).
  apply bind_ok_inv in H as ([] & w2 & Hwf & Hwp).
  apply os_makedirs_ok in Hmk. apply write_file_ok in Hwf, Hwp.
  injection Hlog as <-. subst w3 w2. cbn [fs logged wrote].
  pose proof (index_faiss_ne_dir BASE_DIR) as Nfd.
  pose proof (index_pkl_ne_dir BASE_DIR) as Npd.
  pose proof (index_faiss_ne_pkl BASE_DIR) as Nfp.
  repeat split.
  - now rewrite !lookup_insert_ne.
  - rewrite lookup_insert_ne by (intros E; now apply Nfp). apply lookup_insert_eq.
  - apply lookup_insert_eq.
Qed.

Lemma create_vector_store_ok
  (pdf_files : list str) (w w' : world) (vector_store : VectorStore) :
  create_vector_store BASE_DIR L pdf_files w = (Ok vector_store, w') ->
  fs w' !! VECTOR_STORE_DIR BASE_DIR = Some Dir
  /\ fs w' !! index_faiss BASE_DIR = Some (File (write_index L vector_store))
  /\ fs w' !! index_pkl BASE_DIR = Some (File (pickle_dump L vector_store)).
Proof.
  unfold create_vector_store. rewrite run_try_except.
  match goal with |- context [match ?body w with _ => _ end] =>
    destruct (body w) as [[vs|e] w1] eqn:Hbody
  end.
  - intros [= <- <-].
    apply bind_ok_inv in Hbody as (all_docs & wa & _ & H).
    apply bind_ok_inv in H as (chunks & wb & _ & H).
    apply bind_ok_inv in H as ([] & wc & _ & H).
    apply bind_ok_inv in H as ([] & wd & _ & H).
    apply bind_ok_inv in H as (emb & we & _ & H).
    apply bind_ok_inv in H as (vs' & wf & _ & H).
    apply bind_ok_inv in H as ([] & wg & Hsave & H).
    injection H as <- <-. exact (save_vector_store_ok _ _ _ Hsave).
  - rewrite run_bind. unfold logger. discriminate.
Qed.

Lemma vector_store_exists_run (w : world) (d a b : node) :
  fs w !! VECTOR_STORE_DIR BASE_DIR = Some d ->
  fs w !! index_faiss BASE_DIR = Some a ->
  fs w !! index_pkl BASE_DIR = Some b ->
  vector_store_exists BASE_DIR w = (Ok true, w).
Proof.
  intros Hd Ha Hb. unfold vector_store_exists. rewrite run_bind. unfold read_fs.
  cbn [forallb mret M_ret].
  fold (index_faiss BASE_DIR). fold (index_pkl BASE_DIR).
  now rewrite Hd, Ha, Hb.
Qed.

Lemma extends_rebuild_tail : extends_history (rebuild_tail BASE_DIR L).
Proof.
  unfold rebuild_tail. pose proof extends_create_vector_store.
  pose proof extends_list_sizes. extends.
Qed.

Lemma rebuild_tail_ok (w w' : world) :
  rebuild_tail BASE_DIR L w = (Ok Rebuilt, w') ->
  vector_store_exists BASE_DIR w' = (Ok true, w')
  /\ fs w' !! VECTOR_STORE_DIR BASE_DIR = Some Dir.
Proof.
  unfold rebuild_tail. intros H.
  apply bind_ok_inv in H as ([] & w0 & _ & H).
  rewrite run_try_except, run_bind in H.
  destruct (create_vector_store _ _ _ w0) as [[vs|e] w1] eqn:Hc; [|discriminate].
  injection H as <-.
  destruct (create_vector_store_ok _ _ _ _ Hc) as (Hd & Hf & Hp).
  split; [|exact Hd]. eapply vector_store_exists_run; eassumption.
Qed.

(** The script deletes the directory, when there is one, before anything
    else happens to the disk. *)
Lemma rebuild_vector_store_run (w : world) :
  rebuild_vector_store BASE_DIR L w
  = match import_RAG_engine BASE_DIR w with
    | (Ok _, w0) =>
        match fs w0 !! VECTOR_STORE_DIR BASE_DIR with
        | None => rebuild_tail BASE_DIR L w0
        | Some _ =>
            match shutil_rmtree (VECTOR_STORE_DIR BASE_DIR) w0 with
            | (Ok _, w1) => rebuild_tail BASE_DIR L w1
            | (Raise e, w1) => (Raise e, w1)
            end
        end
    | (Raise e, w0) => (Raise e, w0)
    end.
Proof.
  unfold rebuild_vector_store. rewrite run_bind.
  destruct (import_RAG_engine BASE_DIR w) as [[[]|e] w0]; [|reflexivity].
  rewrite run_bind. unfold os_path_exists. rewrite run_bind. unfold read_fs.
  cbn [mret M_ret].
  destruct (fs w0 !! VECTOR_STORE_DIR BASE_DIR) as [n|]; rewrite run_bind.
  - destruct (shutil_rmtree _ w0) as [[[]|e] w1]; reflexivity.
  - reflexivity.
Qed.

Lemma import_RAG_engine_fs (w : world) :
  exists w0, import_RAG_engine BASE_DIR w = (Ok tt, w0)
             /\ fs w0 = fs w /\ history w0 = history w.
Proof.
  unfold import_RAG_engine. rewrite run_bind.
  unfold vector_store_exists. rewrite run_bind. unfold read_fs.
  cbn [mret M_ret].
  match goal with |- context [negb ?b] => destruct b end; cbn [negb];
    eexists; (split; [reflexivity|split; reflexivity]).
Qed.

Lemma rebuild_vector_store_ok (w w' : world) :
  rebuild_vector_store BASE_DIR L w = (Ok Rebuilt, w') ->
  vector_store_exists BASE_DIR w' = (Ok true, w')
  /\ fs w' !! VECTOR_STORE_DIR BASE_DIR = Some Dir.
Proof.
  rewrite rebuild_vector_store_run.
  destruct (import_RAG_engine_fs w) as (w0 & -> & _ & _).
  destruct (fs w0 !! VECTOR_STORE_DIR BASE_DIR).
  - destruct (shutil_rmtree _ w0) as [[[]|e] w1]; [|discriminate].
    apply rebuild_tail_ok.
  - apply rebuild_tail_ok.
Qed.

(** C2 (as amended): the rebuild deletes the index directory first and then
    runs the build.  A rebuild that completes with a successful build leaves
    the directory with both required files, so two such rebuilds in a row
    leave a structurally valid index both times; the second one starts by
    taking the disk to a state without the directory and without either
    file, the index of the first being gone before the new one is written. *)
Theorem rebuild_twice (w w1 w2 : world) :
  rebuild_vector_store BASE_DIR L w = (Ok Rebuilt, w1) ->
  rebuild_vector_store BASE_DIR L w1 = (Ok Rebuilt, w2) ->
  vector_store_exists BASE_DIR w1 = (Ok true, w1)
  /\ vector_store_exists BASE_DIR w2 = (Ok true, w2)
  /\ exists f later,
       history w2 = history w1 ++ f :: later
       /\ f !! VECTOR_STORE_DIR BASE_DIR = None
       /\ f !! index_faiss BASE_DIR = None
       /\ f !! index_pkl BASE_DIR = None.
Proof.
  intros H1 H2.
  destruct (rebuild_vector_store_ok _ _ H1) as (E1 & D1).
  destruct (rebuild_vector_store_ok _ _ H2) as (E2 & _).
  split; [exact E1|]. split; [exact E2|].
  rewrite rebuild_vector_store_run in H2.
  destruct (import_RAG_engine_fs w1) as (w0 & Hi & Hfs & Hh).
  rewrite Hi, Hfs, D1 in H2.
  unfold shutil_rmtree in H2. rewrite run_bind in H2. unfold read_fs in H2.
  rewrite Hfs, D1 in H2. unfold write_fs in H2.
  destruct (extends_rebuild_tail _ _ _ H2) as (later & Hl).
  eexists _, later. split.
  - rewrite Hl. cbn [history wrote]. rewrite Hh, <- app_assoc. reflexivity.
  - split; [|split]; apply rmtree_lookup.
    + apply within_dir.
    + apply within_index_faiss.
    + apply within_index_pkl.
Qed.
End Rebuild.

(** C2 (as amended) at work: two rebuilds in a row over the four PDFs. *)
Lemma rebuild_twice_witness :
  let w := Demo.on_disk Demo.disk_old_index in
  let w1 := (rebuild_vector_store Demo.BASE Demo.toy w).2 in
  let w2 := (rebuild_vector_store Demo.BASE Demo.toy w1).2 in
  vector_store_exists Demo.BASE w1 = (Ok true, w1)
  /\ vector_store_exists Demo.BASE w2 = (Ok true, w2).
Proof.
  intros w w1 w2.
  destruct (rebuild_twice Demo.BASE Demo.toy w w1 w2) as (E1 & E2 & _).
  - vm_compute. reflexivity.
  - vm_compute. reflexivity.
  - split; assumption.
Defined.

(** C2 as stated fails.  Over a complete index and the four PDFs the
    rebuild succeeds, but the first state the disk goes through has neither
    the old nor the new index: an interruption there leaves none.  Over a
    complete index and no PDF the script runs to its end, aborted by the
    size listing, with the old index deleted and no new one. *)
Lemma rebuild_leaves_no_index :
  (let w := Demo.on_disk Demo.disk_old_index in
   let w' := (rebuild_vector_store Demo.BASE Demo.toy w).2 in
   vector_store_exists Demo.BASE w = (Ok true, w)
   /\ (rebuild_vector_store Demo.BASE Demo.toy w).1 = Ok Rebuilt
   /\ exists f,
        head (history w') = Some f
        /\ f !! VECTOR_STORE_DIR Demo.BASE = None
        /\ f !! index_faiss Demo.BASE = None
        /\ f !! index_pkl Demo.BASE = None)
  /\ (let w := Demo.on_disk Demo.disk_no_pdfs in
      let w' := (rebuild_vector_store Demo.BASE Demo.toy w).2 in
      vector_store_exists Demo.BASE w = (Ok true, w)
      /\ (rebuild_vector_store Demo.BASE Demo.toy w).1
         = Raise (os_error "[Errno 2] No such file or directory"
                    (py "/app/1.pdf") "FileNotFoundError")
      /\ fs w' !! VECTOR_STORE_DIR Demo.BASE = None
      /\ fs w' !! index_faiss Demo.BASE = None
      /\ fs w' !! index_pkl Demo.BASE = None).
Proof.
  cbv zeta. split.
  - split; [vm_compute; reflexivity|]. split; [vm_compute; reflexivity|].
    eexists. split; [vm_compute; reflexivity|].
    repeat split; vm_compute; reflexivity.
  - repeat split; vm_compute; reflexivity.
Qed.

(** ** More on the formatter *)

Lemma split_not_nil (sep : N) (s : str) : split sep s <> [].
Proof.
  induction s as [|c r IH]; simpl; [discriminate|].
  destruct (c =? sep); [discriminate|].
  destruct (split sep r); discriminate.
Qed.

Lemma split_no_sep (sep : N) (s : str) :
  Forall (fun l => contains sep l = false) (split sep s).
Proof.
  induction s as [|c r IH]; simpl.
  - repeat constructor.
  - destruct (N.eqb_spec c sep) as [->|Hne].
    + constructor; [reflexivity|exact IH].
    + destruct (split sep r) as [|l ls]; inversion IH; subst;
        constructor; try assumption; try constructor;
        unfold contains in *; simpl;
        (replace (sep =? c) with false by (symmetry; apply N.eqb_neq; congruence));
        simpl; [reflexivity|assumption].
Qed.

(** Joining what [split] gave restores the string. *)
Lemma join_split (sep : N) (s : str) : join [sep] (split sep s) = s.
Proof.
  induction s as [|c r IH]; simpl; [reflexivity|].
  destruct (N.eqb_spec c sep) as [->|Hne].
  - pose proof (split_not_nil sep r) as Hn.
    destruct (split sep r) as [|l ls]; [congruence|].
    simpl in *. now rewrite IH.
  - pose proof (split_not_nil sep r) as Hn.
    destruct (split sep r) as [|l ls]; [congruence|].
    rewrite <- IH. destruct ls; reflexivity.
Qed.

Lemma split_app (sep : N) (a b : str) :
  split sep (a ++ sep :: b) = split sep a ++ split sep b.
Proof.
  induction a as [|c r IH]; simpl.
  - now rewrite N.eqb_refl.
  - destruct (c =? sep); [now rewrite IH|].
    rewrite IH. pose proof (split_not_nil sep r) as Hn.
    destruct (split sep r) as [|l ls]; [congruence|reflexivity].
Qed.

Lemma lstrip_head (s : str) (c : N) :
  head (lstrip s) = Some c -> isspace c = false.
Proof.
  induction s as [|d r IH]; simpl; [discriminate|].
  destruct (isspace d) eqn:Hd; [exact IH|].
  simpl. now intros [= <-].
Qed.

Lemma last_rev (s : str) : last (rev s) = head s.
Proof. destruct s as [|c r]; [reflexivity|]. simpl. apply last_snoc. Qed.

Lemma rstrip_last (s : str) (c : N) :
  last (rstrip s) = Some c -> isspace c = false.
Proof. unfold rstrip. rewrite last_rev. apply lstrip_head. Qed.

Lemma rstrip_head (s : str) (c : N) :
  head (rstrip s) = Some c -> head s = Some c.
Proof.
  destruct (rstrip_decompose s) as (b & Hs & _). rewrite Hs at 2.
  destruct (rstrip s); [discriminate|]. now simpl.
Qed.

Lemma strip_head (s : str) (c : N) :
  head (strip s) = Some c -> isspace c = false.
Proof. intros H. apply rstrip_head in H. now apply lstrip_head in H. Qed.

Lemma strip_last (s : str) (c : N) :
  last (strip s) = Some c -> isspace c = false.
Proof. apply rstrip_last. Qed.

(** Stripping twice is stripping once. *)
Lemma strip_strip (s : str) : strip (strip s) = strip s.
Proof. apply strip_fixed; [apply strip_head|apply strip_last]. Qed.

Lemma strip_no_nl (s : str) :
  contains nl s = false -> contains nl (strip s) = false.
Proof.
  destruct (strip_decompose s) as (a & b & Hs & _ & _).
  rewrite Hs at 1. rewrite !contains_app.
  intros H. apply orb_false_elim in H as [_ H].
  now apply orb_false_elim in H as [H _].
Qed.

Lemma spaces_app (a b : str) : spaces (a ++ b) <-> spaces a /\ spaces b.
Proof.
  unfold spaces. rewrite forallb_app. split.
  - intros H. now apply andb_prop in H.
  - intros [-> ->]. reflexivity.
Qed.

Lemma strip_spaces (s : str) : strip s = [] <-> spaces s.
Proof.
  split.
  - intros H. destruct (strip_decompose s) as (a & b & Hs & Ha & Hb).
    rewrite Hs, H. simpl. now apply spaces_app.
  - intros H. destruct (strip s) as [|c r] eqn:Hs; [reflexivity|].
    assert (isspace c = false) as Hc by (apply (strip_head s); now rewrite Hs).
    destruct (strip_decompose s) as (a & b & Hd & _ & _).
    rewrite Hd, Hs in H. apply spaces_app in H as [_ H].
    unfold spaces in H. simpl in H. now rewrite Hc in H.
Qed.

Lemma wrapped_tidy (d s : str) :
  d = py "$" \/ d = py "$$" -> contains nl s = false -> tidy (d ++ s ++ d).
Proof.
  intros Hd Hs.
  assert (exists r, d = 36 :: r /\ last d = Some 36 /\ contains nl d = false)
    as (r & Hr & Hl & Hn)
    by (destruct Hd as [-> | ->]; eexists; repeat split; reflexivity).
  repeat split.
  - rewrite Hr. discriminate.
  - now rewrite !contains_app, Hs, Hn.
  - apply strip_fixed.
    + rewrite Hr. simpl. now intros c [= <-].
    + rewrite app_assoc, last_app, Hl. now intros c [= <-].
Qed.

Lemma format_step_tidy (line : str) :
  contains nl line = false -> Forall tidy (format_step [] line).
Proof.
  intros Hn. unfold format_step.
  destruct (strip line) as [|c r] eqn:Hs; [constructor|].
  assert (contains nl (c :: r) = false) as Hn'
    by (rewrite <- Hs; now apply strip_no_nl).
  repeat match goal with |- context [if ?b then _ else _] => destruct b end;
    rewrite app_nil_l; (constructor; [|constructor]).
  - apply (wrapped_tidy (py "$$")); [now right|exact Hn'].
  - apply (wrapped_tidy (py "$")); [now left|exact Hn'].
  - repeat split; [discriminate|exact Hn'|].
    rewrite <- Hs. apply strip_strip.
Qed.

Lemma fold_format_step_tidy (lines : list str) :
  Forall (fun l => contains nl l = false) lines ->
  Forall tidy (fold_left format_step lines []).
Proof.
  induction 1 as [|l ls Hl Hls IH]; [constructor|].
  rewrite fold_format_step_cons. apply Forall_app. split; [|exact IH].
  now apply format_step_tidy.
Qed.

Lemma formatted_lines_tidy (text : str) : Forall tidy (formatted_lines text).
Proof. apply fold_format_step_tidy, split_no_sep. Qed.

Lemma join_nil_tidy (lines : list str) :
  Forall tidy lines -> join [nl] lines = [] -> lines = [].
Proof.
  intros H E. destruct lines as [|l ls]; [reflexivity|].
  inversion H as [|? ? (Hne & _) _]; subst.
  now apply join_cons_nonempty in E.
Qed.

Lemma split_join_tidy (lines : list str) :
  lines <> [] -> Forall tidy lines -> split nl (join [nl] lines) = lines.
Proof.
  intros Hne H. apply split_join; [exact Hne|].
  eapply Forall_impl; [exact H|]. now intros l (_ & Hl & _).
Qed.

(** X1: the output of [format_latex] is empty or made of lines none of which
    is empty, and none of which starts or ends with white space. *)
Theorem format_latex_output_tidy (text : str) :
  format_latex text = []
  \/ Forall (fun l => l <> [] /\ strip l = l) (split nl (format_latex text)).
Proof.
  unfold format_latex. fold (formatted_lines text).
  pose proof (formatted_lines_tidy text) as H.
  destruct (formatted_lines text) as [|l ls] eqn:E; [now left|].
  right. rewrite split_join_tidy by (try discriminate; exact H).
  eapply Forall_impl; [exact H|]. now intros x (? & _ & ?).
Qed.

Lemma format_step_nil (line : str) :
  format_step [] line = [] <-> strip line = [].
Proof.
  unfold format_step. destruct (strip line) as [|c r]; [tauto|].
  repeat match goal with |- context [if ?b then _ else _] => destruct b end;
    split; discriminate.
Qed.

Lemma fold_format_step_nil (lines : list str) :
  fold_left format_step lines [] = [] <-> Forall spaces lines.
Proof.
  induction lines as [|l ls IH].
  - split; [constructor|reflexivity].
  - rewrite fold_format_step_cons. split.
    + intros H. apply app_eq_nil in H as [H1 H2]. constructor.
      * now apply strip_spaces, format_step_nil.
      * now apply IH.
    + intros H. inversion H as [|? ? Hl Hls]; subst.
      apply strip_spaces, format_step_nil in Hl. apply IH in Hls.
      now rewrite Hl, Hls.
Qed.

Lemma split_spaces (s : str) : spaces s <-> Forall spaces (split nl s).
Proof.
  induction s as [|c r IH]; simpl.
  - split; [repeat constructor|reflexivity].
  - destruct (N.eqb_spec c nl) as [->|Hne].
    + change (spaces (nl :: r)) with (spaces ([nl] ++ r)).
      rewrite spaces_app, IH. split.
      * intros [_ H]. now constructor.
      * intros H. inversion H; subst. now split.
    + pose proof (split_not_nil nl r) as Hn.
      destruct (split nl r) as [|l ls]; [congruence|].
      change (spaces (c :: r)) with (spaces ([c] ++ r)).
      change (c :: l) with ([c] ++ l).
      rewrite spaces_app, IH. split.
      * intros [Hc H]. inversion H; subst. constructor; [|assumption].
        now apply (spaces_app [c] l).
      * intros H. inversion H as [|? ? Hcl Hls]; subst.
        apply (spaces_app [c] l) in Hcl as [Hc Hl].
        split; [exact Hc|now constructor].
Qed.

(** X2: [format_latex] returns the empty string exactly on the texts made
    of white space only (line breaks included), the empty text among them. *)
Theorem format_latex_empty_iff (text : str) :
  format_latex text = [] <-> forallb isspace text = true.
Proof.
  fold (spaces text). rewrite split_spaces, <- fold_format_step_nil.
  unfold format_latex. fold (formatted_lines text). split.
  - apply join_nil_tidy, formatted_lines_tidy.
  - unfold formatted_lines. now intros ->.
Qed.

Lemma join_app_tidy (xs ys : list str) :
  xs <> [] -> ys <> [] ->
  join [nl] (xs ++ ys) = join [nl] xs ++ nl :: join [nl] ys.
Proof.
  intros Hx Hy. induction xs as [|x xs IH]; [congruence|].
  destruct xs as [|x' xs].
  - simpl. destruct ys; [congruence|reflexivity].
  - change (join [nl] ((x :: x' :: xs) ++ ys))
      with (x ++ [nl] ++ join [nl] ((x' :: xs) ++ ys)).
    rewrite IH by discriminate.
    change (join [nl] (x :: x' :: xs)) with (x ++ [nl] ++ join [nl] (x' :: xs)).
    now rewrite <- !app_assoc.
Qed.

Lemma formatted_lines_app (a b : str) :
  formatted_lines (a ++ nl :: b) = formatted_lines a ++ formatted_lines b.
Proof.
  unfold formatted_lines. now rewrite split_app, fold_format_step_app.
Qed.

(** X4: formatting two texts put together with a line break is formatting
    each and putting the results together with a line break, unless one of
    the results is empty, in which case it is the other result alone. *)
Theorem format_latex_app (a b : str) :
  format_latex (a ++ nl :: b)
  = match format_latex a, format_latex b with
    | [], y => y
    | x, [] => x
    | x, y => x ++ nl :: y
    end.
Proof.
  unfold format_latex. fold (formatted_lines (a ++ nl :: b)).
  fold (formatted_lines a). fold (formatted_lines b).
  rewrite formatted_lines_app.
  pose proof (formatted_lines_tidy a) as Ha.
  pose proof (formatted_lines_tidy b) as Hb.
  destruct (formatted_lines a) as [|x xs] eqn:Ea.
  - reflexivity.
  - destruct (formatted_lines b) as [|y ys] eqn:Eb.
    + rewrite app_nil_r. simpl (join [nl] []).
      now destruct (join [nl] (x :: xs)).
    + rewrite join_app_tidy by discriminate.
      pose proof (join_nil_tidy _ Ha) as Hx. pose proof (join_nil_tidy _ Hb) as Hy.
      destruct (join [nl] (x :: xs)); [now specialize (Hx eq_refl)|].
      destruct (join [nl] (y :: ys)); [now specialize (Hy eq_refl)|].
      reflexivity.
Qed.

Lemma search_app_l (a s : str) :
  search_latex_command s = true -> search_latex_command (a ++ s) = true.
Proof.
  intros H. induction a as [|c r IH]; simpl; [exact H|].
  rewrite IH. apply orb_true_r.
Qed.

Lemma search_app_r (s b : str) :
  search_latex_command s = true -> search_latex_command (s ++ b) = true.
Proof.
  induction s as [|c r IH]; simpl; [discriminate|].
  intros H. apply orb_prop in H as [H|H].
  - destruct r as [|d r']; [now rewrite andb_false_r in H|].
    simpl. now rewrite H.
  - rewrite (IH H). apply orb_true_r.
Qed.

Lemma has_marker_wrapped (d s : str) :
  has_marker s = true -> has_marker (d ++ s ++ d) = true.
Proof.
  unfold has_marker. intros H. apply orb_prop in H as [H|H].
  - apply orb_true_iff. left. apply existsb_exists in H as (c & Hc & Hs).
    apply existsb_exists. exists c. split; [exact Hc|].
    rewrite !contains_app, Hs. now rewrite orb_true_r.
  - apply orb_true_iff. right. now apply search_app_l, search_app_r.
Qed.

(** What the loop makes of a line that is already tidy. *)
Lemma format_step_of_tidy (l : str) :
  tidy l ->
  format_step [] l
  = [ if has_marker l
      then if contains 61 l && (List.length l <? 100)%nat
           then py "$$" ++ l ++ py "$$" else py "$" ++ l ++ py "$"
      else l ].
Proof.
  intros (Hne & _ & Hs). destruct (has_marker l) eqn:Hm.
  - rewrite format_step_marked by exact Hm. now rewrite Hs.
  - rewrite format_step_plain by exact Hm. rewrite Hs. now destruct l.
Qed.

Lemma format_step_keeps_marker (line : str) (b : bool) :
  has_marker line = b -> Forall (fun l => has_marker l = b) (format_step [] line).
Proof.
  intros Hm. destruct b.
  - rewrite format_step_marked by exact Hm. constructor; [|constructor].
    rewrite <- has_marker_strip in Hm.
    destruct (_ && _); now apply has_marker_wrapped.
  - rewrite format_step_plain by exact Hm.
    destruct (strip line) eqn:Hs; constructor; [|constructor].
    now rewrite <- Hs, has_marker_strip.
Qed.

Lemma fold_format_step_plain (lines : list str) :
  Forall (fun l => has_marker l = false) lines ->
  Forall (fun l => has_marker l = false) (fold_left format_step lines []).
Proof.
  induction 1 as [|l ls Hl Hls IH]; [constructor|].
  rewrite fold_format_step_cons. apply Forall_app. split; [|exact IH].
  now apply format_step_keeps_marker.
Qed.

Lemma fold_format_step_marked (lines : list str) :
  Exists (fun l => has_marker l = true) lines ->
  Exists (fun l => has_marker l = true) (fold_left format_step lines []).
Proof.
  induction 1 as [l ls Hl|l ls Hls IH]; rewrite fold_format_step_cons;
    apply Exists_app.
  - left. pose proof (format_step_keeps_marker l true Hl) as H.
    rewrite format_step_marked in * by exact Hl.
    inversion H; subst. now constructor.
  - now right.
Qed.

(** Formatting lines that are tidy and free of markers changes nothing. *)
Lemma refold_plain (out : list str) :
  Forall tidy out -> Forall (fun l => has_marker l = false) out ->
  fold_left format_step out [] = out.
Proof.
  induction 1 as [|l ls Hl Hls IH]; [reflexivity|].
  intros H. inversion H as [|? ? Hm Hms]; subst.
  rewrite fold_format_step_cons, format_step_of_tidy by exact Hl.
  now rewrite Hm, IH.
Qed.

(** Formatting tidy lines keeps their number and never shortens them; a
    line with a marker grows. *)
Lemma refold_sizes (out : list str) :
  Forall tidy out ->
  List.length (fold_left format_step out []) = List.length out
  /\ (List.length (List.concat out)
      <= List.length (List.concat (fold_left format_step out [])))%nat
  /\ (Exists (fun l => has_marker l = true) out ->
      (List.length (List.concat out)
       < List.length (List.concat (fold_left format_step out [])))%nat).
Proof.
  induction 1 as [|l ls Hl Hls (IH1 & IH2 & IH3)].
  - repeat split; [reflexivity|]. intros H. inversion H.
  - rewrite fold_format_step_cons, format_step_of_tidy by exact Hl.
    cbn [app List.concat List.length]. rewrite !length_app, IH1.
    assert (forall d, List.length (d ++ l ++ d)
                      = (List.length l + 2 * List.length d)%nat) as Hw
      by (intros d; rewrite !length_app; lia).
    split; [reflexivity|].
    destruct (has_marker l) eqn:Hm.
    + assert (List.length l
              < List.length (if contains 61 l && (List.length l <? 100)%nat
                             then py "$$" ++ l ++ py "$$"
                             else py "$" ++ l ++ py "$"))%nat as Hlt
        by (destruct (_ && _); rewrite Hw; simpl; lia).
      split; [lia|]. intros _. lia.
    + split; [lia|]. intros H. inversion H as [? ? Hm'|? ? Hx]; subst.
      * congruence.
      * specialize (IH3 Hx). lia.
Qed.

Lemma length_join (lines : list str) :
  lines <> [] ->
  (List.length (join [nl] lines) + 1
   = List.length (List.concat lines) + List.length lines)%nat.
Proof.
  induction lines as [|l ls IH]; [congruence|]. intros _.
  destruct ls as [|l' ls].
  - simpl. rewrite app_nil_r. lia.
  - change (join [nl] (l :: l' :: ls)) with (l ++ [nl] ++ join [nl] (l' :: ls)).
    specialize (IH ltac:(discriminate)).
    cbn [List.concat List.length] in *. rewrite !length_app in *.
    cbn [List.length] in *. lia.
Qed.

(** X3: formatting a formatted text again gives the same text exactly when
    no line of the original text carries a marker; a line with a marker is
    wrapped a second time. *)
Theorem format_latex_idempotent_iff (text : str) :
  format_latex (format_latex text) = format_latex text
  <-> Forall (fun l => has_marker l = false) (split nl text).
Proof.
  pose proof (formatted_lines_tidy text) as Ht.
  unfold format_latex at 2 3. fold (formatted_lines text).
  destruct (formatted_lines text) as [|o os] eqn:Eo.
  - split; [|reflexivity]. intros _.
    apply fold_format_step_nil in Eo.
    eapply Forall_impl; [exact Eo|]. intros l Hl.
    rewrite <- has_marker_strip. apply strip_spaces in Hl. now rewrite Hl.
  - unfold format_latex. rewrite split_join_tidy by (try discriminate; exact Ht).
    split.
    + intros E.
      destruct (decide (Forall (fun l => has_marker l = false) (split nl text)))
        as [H|H]; [exact H|exfalso].
      apply not_Forall_Exists in H; [|intros x; apply _].
      assert (Exists (fun l => has_marker l = true) (o :: os)) as Hm.
      { rewrite <- Eo. apply fold_format_step_marked.
        eapply Exists_impl; [exact H|]. intros l Hl. cbn in Hl.
        now destruct (has_marker l). }
      destruct (refold_sizes _ Ht) as (Hn & _ & Hlt). specialize (Hlt Hm).
      apply (f_equal (@List.length N)) in E.
      pose proof (length_join (o :: os) ltac:(discriminate)) as L1.
      assert (fold_left format_step (o :: os) [] <> []) as Hne
        by (intros E0; rewrite E0 in Hn; discriminate Hn).
      pose proof (length_join _ Hne) as L2. lia.
    + intros H. rewrite refold_plain; [reflexivity|exact Ht|].
      rewrite <- Eo. now apply fold_format_step_plain.
Qed.

(** ** Computations that leave the disk alone *)

Lemma keeps_mret {A : Type} (a : A) : keeps_disk (mret a : M A).
Proof. now intros w w' r [= <- <-]. Qed.

Lemma keeps_raise {A : Type} (e : exn) : keeps_disk (raise e : M A).
Proof. now intros w w' r [= <- <-]. Qed.

Lemma keeps_lift {A : Type} (x : result A) : keeps_disk (lift x).
Proof. now intros w w' r [= <- <-]. Qed.

Lemma keeps_logger (lv : level) (msg : str) : keeps_disk (logger lv msg).
Proof. now intros w w' r [= <- <-]. Qed.

Lemma keeps_read_fs : keeps_disk read_fs.
Proof. now intros w w' r [= <- <-]. Qed.

Lemma keeps_bind {A B : Type} (c : M A) (k : A -> M B) :
  keeps_disk c -> (forall a, keeps_disk (k a)) -> keeps_disk (c ≫= k).
Proof.
  intros Hc Hk w w' r. rewrite run_bind.
  destruct (c w) as [[a|e] w1] eqn:Hcw; destruct (Hc _ _ _ Hcw) as (F1 & H1).
  - intros Hka. destruct (Hk a _ _ _ Hka) as (F2 & H2). split; congruence.
  - intros [= <- <-]. now split.
Qed.

Lemma keeps_try_except {A : Type} (body : M A) (handler : exn -> M A) :
  keeps_disk body -> (forall e, keeps_disk (handler e)) ->
  keeps_disk (try_except body handler).
Proof.
  intros Hc Hk w w' r. rewrite run_try_except.
  destruct (body w) as [[a|e] w1] eqn:Hcw; destruct (Hc _ _ _ Hcw) as (F1 & H1).
  - intros [= <- <-]. now split.
  - intros Hka. destruct (Hk e _ _ _ Hka) as (F2 & H2). split; congruence.
Qed.

Create HintDb disk.

#[local] Hint Resolve keeps_mret keeps_raise keeps_lift keeps_logger
  keeps_read_fs : disk.

Ltac keeps :=
  repeat first
    [ apply keeps_bind; [|intros ?]
    | apply keeps_try_except; [|intros ?]
    | match goal with
      | |- keeps_disk (match ?x with _ => _ end) => destruct x
      | |- keeps_disk (if ?x then _ else _) => destruct x
      end
    | solve [auto with disk] ].

Lemma keeps_os_path_exists (p : str) : keeps_disk (os_path_exists p).
Proof. unfold os_path_exists. keeps. Qed.

Lemma keeps_os_path_getsize (p : str) : keeps_disk (os_path_getsize p).
Proof. unfold os_path_getsize. keeps. Qed.

Lemma keeps_list_sizes (pdfs : list str) : keeps_disk (list_sizes pdfs).
Proof.
  pose proof keeps_os_path_getsize.
  induction pdfs as [|p rest IH]; simpl; keeps.
Qed.

#[local] Hint Resolve keeps_os_path_exists keeps_os_path_getsize
  keeps_list_sizes : disk.

Section ReadOnly.
Context {Embeddings VectorStore : Type}.
Variable BASE_DIR : str.
Variable L : Libs Embeddings VectorStore.

Lemma keeps_PyPDFLoader_load (p : str) : keeps_disk (PyPDFLoader_load L p).
Proof. unfold PyPDFLoader_load. keeps. Qed.

Lemma keeps_FAISS_load_local (folder : str) (emb : Embeddings) :
  keeps_disk (FAISS_load_local L folder emb).
Proof. unfold FAISS_load_local. keeps. Qed.

#[local] Hint Resolve keeps_PyPDFLoader_load keeps_FAISS_load_local : disk.

Lemma keeps_load_pdfs (pdf_files : list str) (all_docs : list Document) :
  keeps_disk (load_pdfs L pdf_files all_docs).
Proof.
  revert all_docs. induction pdf_files as [|p rest IH]; intros all_docs;
    simpl; keeps.
Qed.

#[local] Hint Resolve keeps_load_pdfs : disk.

Lemma keeps_load_documents (pdf_files : list str) :
  keeps_disk (load_documents L pdf_files).
Proof. unfold load_documents. keeps. Qed.

Lemma keeps_vector_store_exists : keeps_disk (vector_store_exists BASE_DIR).
Proof. unfold vector_store_exists. keeps. Qed.

(** The query path with the directory in place. *)
Lemma keeps_load_stage (query : str) :
  keeps_disk
    (logger INFO (py "Loading vector store for query: " ++ query);;
     embeddings ← lift (SentenceTransformerEmbeddings L MODEL_NAME);
     FAISS_load_local L (VECTOR_STORE_DIR BASE_DIR) embeddings).
Proof. keeps. Qed.
End ReadOnly.

(** ** More on the retrieval service *)

Section RetrievalMore.
Context {Embeddings VectorStore : Type}.
Variable BASE_DIR : str.
Variable L : Libs Embeddings VectorStore.

Lemma format_chunks_lookup (results : list Document) :
  forall (i : Z) (j : nat),
    format_chunks i results !! j
    = chunk_text (i + Z.of_nat j) <$> results !! j.
Proof.
  induction results as [|d ds IH]; intros i j; [reflexivity|].
  destruct j as [|j]; simpl.
  - now rewrite Z.add_0_r.
  - rewrite IH. do 2 f_equal. lia.
Qed.

Lemma format_chunks_length (i : Z) (results : list Document) :
  List.length (format_chunks i results) = List.length results.
Proof.
  revert i. induction results as [|d ds IH]; intros i; simpl; [reflexivity|].
  now rewrite IH.
Qed.

(** X5: when the index is opened and the search returns at least one
    result, [retrieve_answer] returns one source block per result, in the
    order of the results and joined by the separator; the block of the
    result at position [j] (from 0) is labelled [j + 1], names the page of
    its metadata, or [N/A] when there is none, and carries the formatted
    text of the stripped chunk. *)
Theorem retrieve_answer_blocks
  (query : str) (k : Z) (w w1 : world) (vs : VectorStore)
  (results : list Document) :
  open_vector_store BASE_DIR L query w = (Ok vs, w1) ->
  similarity_search L vs query k = Ok results ->
  results <> [] ->
  retrieve_answer BASE_DIR L query k w
  = (Ok (join ([nl; nl] ++ py "---" ++ [nl; nl]) (format_chunks 1 results)),
     logged INFO (py "Found " ++ str_of_Z (Z.of_nat (List.length results))
                  ++ py " relevant chunks") w1)
  /\ List.length (format_chunks 1 results) = List.length results
  /\ forall (j : nat) (d : Document),
       results !! j = Some d ->
       format_chunks 1 results !! j
       = Some (py "**Source " ++ str_of_Z (Z.of_nat j + 1) ++ py "** (Page "
               ++ match metadata d !! py "page" with
                  | Some (PInt z) => str_of_Z z
                  | Some (PStr s) => s
                  | None => py "N/A"
                  end
               ++ py "):" ++ [nl] ++ format_latex (strip (page_content d))).
Proof.
  intros Ho Hs Hne. split; [|split].
  - rewrite retrieve_answer_run. unfold retrieve_answer_body.
    rewrite run_bind, Ho, run_bind. unfold lift. rewrite Hs.
    now destruct results.
  - apply format_chunks_length.
  - intros j d Hd. rewrite format_chunks_lookup, Hd. cbn [fmap option_fmap option_map].
    unfold chunk_text. rewrite Z.add_comm.
    destruct (metadata d !! py "page") as [[z|s]|]; reflexivity.
Qed.

(** X6: with the index directory in place, a query never writes to the
    disk, whatever the libraries do and however the query ends. *)
Theorem retrieve_answer_read_only
  (query : str) (k : Z) (w w' : world) (n : node) (r : result str) :
  fs w !! VECTOR_STORE_DIR BASE_DIR = Some n ->
  retrieve_answer BASE_DIR L query k w = (r, w') ->
  fs w' = fs w /\ history w' = history w.
Proof.
  intros Hd. rewrite retrieve_answer_run. unfold retrieve_answer_body.
  rewrite run_bind, (open_vector_store_dir_present BASE_DIR L query w n Hd).
  match goal with |- context [match ?c ?w0 with _ => _ end] =>
    destruct (c w0) as [[vs|e] w1] eqn:Hl
  end.
  - apply (keeps_bind _ _ (keeps_lift _)
             (fun emb => keeps_FAISS_load_local L _ emb)) in Hl as [F H].
    cbn [fs history logged] in F, H.
    rewrite run_bind. unfold lift.
    destruct (similarity_search L vs query k) as [[|d ds]|e];
      intros [= <- <-]; now split.
  - apply (keeps_bind _ _ (keeps_lift _)
             (fun emb => keeps_FAISS_load_local L _ emb)) in Hl as [F H].
    cbn [fs history logged] in F, H.
    intros [= <- <-]. now split.
Qed.
End RetrievalMore.

(** X5 at work: the query ["o"] finds the one chunk of the toy store. *)
Lemma retrieve_answer_blocks_witness :
  (retrieve_answer Demo.BASE Demo.toy (py "o") 3 (Demo.on_disk Demo.disk_old_index)).1
  = Ok (py "**Source 1** (Page 0):" ++ [nl] ++ py "old").
Proof.
  destruct (retrieve_answer_blocks Demo.BASE Demo.toy (py "o") 3
              (Demo.on_disk Demo.disk_old_index)
              (logged INFO (py "Loading vector store for query: o")
                 (Demo.on_disk Demo.disk_old_index))
              [py "old"] [Demo.hit (py "old")]) as (H & _).
  - vm_compute. reflexivity.
  - vm_compute. reflexivity.
  - discriminate.
  - rewrite H. vm_compute. reflexivity.
Defined.

(** X6 at work: a query against the complete index of the toy store. *)
Lemma retrieve_answer_read_only_witness :
  fs (retrieve_answer Demo.BASE Demo.toy (py "o") 3
        (Demo.on_disk Demo.disk_old_index)).2
  = Demo.disk_old_index
  /\ history (retrieve_answer Demo.BASE Demo.toy (py "o") 3
                (Demo.on_disk Demo.disk_old_index)).2
     = [].
Proof.
  apply (retrieve_answer_read_only Demo.BASE Demo.toy (py "o") 3
           (Demo.on_disk Demo.disk_old_index)
           (retrieve_answer Demo.BASE Demo.toy (py "o") 3
              (Demo.on_disk Demo.disk_old_index)).2
           Dir
           (retrieve_answer Demo.BASE Demo.toy (py "o") 3
              (Demo.on_disk Demo.disk_old_index)).1).
  - vm_compute. reflexivity.
  - now destruct (retrieve_answer _ _ _ _ _).
Defined.

(** ** More on building and loading the index *)

Section BuildMore.
Context {Embeddings VectorStore : Type}.
Variable BASE_DIR : str.
Variable L : Libs Embeddings VectorStore.

(** X9: once a store has been saved, loading the index directory hands the
    library exactly the two saved files, whatever the directory held
    before. *)
Theorem save_then_load
  (vector_store : VectorStore) (emb : Embeddings) (w w' : world) :
  save_vector_store BASE_DIR L vector_store w = (Ok tt, w') ->
  FAISS_load_local L (VECTOR_STORE_DIR BASE_DIR) emb w'
  = (read_index L (write_index L vector_store) (pickle_dump L vector_store) emb,
     w').
Proof.
  intros H. destruct (save_vector_store_ok _ _ _ _ _ H) as (_ & Hf & Hp).
  unfold FAISS_load_local. rewrite run_bind. unfold read_fs.
  fold (index_faiss BASE_DIR). fold (index_pkl BASE_DIR).
  now rewrite Hf, Hp.
Qed.

Lemma save_vector_store_log (vector_store : VectorStore) (w w' : world) :
  save_vector_store BASE_DIR L vector_store w = (Ok tt, w') ->
  last (log w')
  = Some (INFO, py "Vector store saved to " ++ VECTOR_STORE_DIR BASE_DIR).
Proof.
  unfold save_vector_store. intros H.
  apply bind_ok_inv in H as ([] & w0 & _ & H).
  apply bind_ok_inv in H as ([] & w3 & _ & H).
  injection H as <-. cbn [log logged]. apply last_snoc.
Qed.


(** X8: a query that finds no index directory and builds the index does not
    search the store it has just built: it loads the two files the build
    has saved, so the store it searches is what the library reads back from
    them. *)
Theorem open_vector_store_reloads
  (query : str) (w w1 : world) (vector_store : VectorStore) (emb : Embeddings) :
  fs w !! VECTOR_STORE_DIR BASE_DIR = None ->
  create_vector_store BASE_DIR L (PDF_FILES BASE_DIR)
    (logged WARNING (py "Vector store not found at " ++ VECTOR_STORE_DIR BASE_DIR
                     ++ py ". Creating new one...") w)
  = (Ok vector_store, w1) ->
  SentenceTransformerEmbeddings L MODEL_NAME = Ok emb ->
  open_vector_store BASE_DIR L query w
  = (read_index L (write_index L vector_store) (pickle_dump L vector_store) emb,
     logged INFO (py "Loading vector store for query: " ++ query) w1).
Proof.
  intros Hd Hc He.
  rewrite (open_vector_store_dir_absent BASE_DIR L query w Hd), Hc.
  destruct (create_vector_store_ok _ _ _ _ _ _ Hc) as (_ & Hf & Hp).
  rewrite run_bind. unfold lift. rewrite He.
  unfold FAISS_load_local. rewrite run_bind. unfold read_fs.
  fold (index_faiss BASE_DIR). fold (index_pkl BASE_DIR).
  cbn [fs logged]. now rewrite Hf, Hp.
Qed.

Lemma loaded_pages_all_missing
  (f : gmap str node) (pages : str -> list Document) (pdfs : list str) :
  Forall (fun p => f !! p = None) pdfs ->
  loaded_pages f pages pdfs = []
  /\ List.concat (List.map (load_log f pages) pdfs)
     = List.map (fun p => (ERROR, py "PDF file not found: " ++ p)) pdfs.
Proof.
  unfold loaded_pages.
  induction 1 as [|p ps Hp Hps [IH1 IH2]]; [now split|].
  simpl. unfold load_log at 1. rewrite Hp, IH1, IH2. now split.
Qed.

(** X7: a query that finds neither the index directory nor any of the
    configured PDFs answers with the error string of the failed build; each
    missing path and the failure (once by the build, once by the query) are
    in the log, and the disk is untouched. *)
Theorem retrieve_answer_without_documents (query : str) (k : Z) (w : world) :
  fs w !! VECTOR_STORE_DIR BASE_DIR = None ->
  Forall (fun p => fs w !! p = None) (PDF_FILES BASE_DIR) ->
  exists w',
    retrieve_answer BASE_DIR L query k w
    = (Ok (py "Error retrieving information: No documents loaded from PDFs"), w')
    /\ fs w' = fs w
    /\ history w' = history w
    /\ log w'
       = log w
         ++ [(WARNING, py "Vector store not found at " ++ VECTOR_STORE_DIR BASE_DIR
                       ++ py ". Creating new one...")]
         ++ List.map (fun p => (ERROR, py "PDF file not found: " ++ p))
              (PDF_FILES BASE_DIR)
         ++ [(ERROR, py "Error creating vector store: No documents loaded from PDFs");
             (ERROR, py "Error retrieving information: No documents loaded from PDFs")].
Proof.
  intros Hd Hm.
  set (w0 := logged WARNING (py "Vector store not found at "
               ++ VECTOR_STORE_DIR BASE_DIR ++ py ". Creating new one...") w).
  destruct (load_pdfs_run L (fun _ => []) (PDF_FILES BASE_DIR) [] w0)
    as (w1 & Hrun & F & H & Hl).
  { eapply Forall_impl; [exact Hm|]. intros p Hp n. cbn [fs w0 logged].
    rewrite Hp. discriminate. }
  change (fs w0) with (fs w) in *. change (history w0) with (history w) in *.
  cbn [log logged w0] in Hl.
  destruct (loaded_pages_all_missing (fs w) (fun _ => []) _ Hm) as [P1 P2].
  rewrite P1 in Hrun. rewrite P2 in Hl. simpl app in Hrun.
  assert (open_vector_store BASE_DIR L query w
          = (Raise NO_DOCUMENTS,
             logged ERROR (py "Error creating vector store: "
                           ++ exn_msg NO_DOCUMENTS) w1)) as Ho.
  { rewrite (open_vector_store_dir_absent BASE_DIR L query w Hd). fold w0.
    unfold create_vector_store. rewrite run_try_except, run_bind.
    unfold load_documents. rewrite run_bind, Hrun. reflexivity. }
  rewrite (retrieve_answer_open_error BASE_DIR L query k w _ _ Ho).
  eexists. split; [reflexivity|]. cbn [fs history log logged].
  split; [exact F|]. split; [exact H|].
  rewrite Hl, <- !app_assoc. reflexivity.
Qed.

(** X12: a PDF that exists but whose loader raises ends the load with the
    loader's exception, when the files before it were loaded or missing: the
    pages collected so far are dropped and the paths after it are not looked
    at. *)
Theorem load_documents_loader_error
  (pages : str -> list Document) (pre rest : list str) (p : str)
  (w : world) (n : node) (e : exn) :
  Forall (fun q => forall m, fs w !! q = Some m -> pdf_load L q m = Ok (pages q))
         pre ->
  fs w !! p = Some n ->
  pdf_load L p n = Raise e ->
  exists w',
    load_documents L (pre ++ p :: rest) w = (Raise e, w')
    /\ fs w' = fs w
    /\ history w' = history w
    /\ log w' = log w ++ List.concat (List.map (load_log (fs w) pages) pre)
                ++ [(INFO, py "Loading PDF: " ++ p)].
Proof.
  intros Hpre Hn He.
  assert (forall all_docs w0, fs w0 = fs w ->
            exists w',
              load_pdfs L (pre ++ p :: rest) all_docs w0 = (Raise e, w')
              /\ fs w' = fs w /\ history w' = history w0
              /\ log w' = log w0
                          ++ List.concat (List.map (load_log (fs w) pages) pre)
                          ++ [(INFO, py "Loading PDF: " ++ p)]) as Hgen.
  { induction Hpre as [|q qs Hq Hqs IH]; intros all_docs w0 F0.
    - simpl app. rewrite (load_pdfs_loader_error L p rest all_docs w0 n e)
        by (try rewrite F0; assumption).
      eexists. split; [reflexivity|]. now cbn [fs history log logged].
    - change ((q :: qs) ++ p :: rest) with (q :: (qs ++ p :: rest)).
      simpl load_pdfs. rewrite run_bind.
      unfold os_path_exists. rewrite run_bind. unfold read_fs. cbn [mret M_ret].
      simpl List.map. simpl List.concat. unfold load_log at 1. rewrite F0.
      destruct (fs w !! q) as [m|] eqn:Hm; cbn [negb].
      + rewrite run_bind. unfold logger at 1. rewrite run_bind.
        unfold PyPDFLoader_load. rewrite run_bind. unfold read_fs.
        cbn [fs logged]. rewrite F0, Hm. unfold lift. rewrite (Hq m eq_refl).
        rewrite run_bind. unfold logger at 1.
        match goal with |- context [load_pdfs L _ ?a ?w2] =>
          destruct (IH a w2) as (w' & Hrun & F & H & Hl); [exact F0|]
        end.
        exists w'. cbn [fs history log logged] in *.
        rewrite Hrun, Hl, <- !app_assoc. repeat split; assumption.
      + rewrite run_bind. unfold logger at 1.
        match goal with |- context [load_pdfs L _ ?a ?w2] =>
          destruct (IH a w2) as (w' & Hrun & F & H & Hl); [exact F0|]
        end.
        exists w'. cbn [fs history log logged] in *.
        rewrite Hrun, Hl, <- !app_assoc. repeat split; assumption. }
  destruct (Hgen [] w eq_refl) as (w' & Hrun & F & H & Hl).
  exists w'. repeat split; try assumption.
  unfold load_documents. now rewrite run_bind, Hrun.
Qed.
End BuildMore.

(** X9 at work: the store [["new"]] saved over an older index and loaded. *)
Lemma save_then_load_witness :
  let w' := (save_vector_store Demo.BASE Demo.toy [py "new"]
               (Demo.on_disk Demo.disk_old_index)).2 in
  FAISS_load_local Demo.toy (VECTOR_STORE_DIR Demo.BASE) tt w'
  = (Ok [py "new"], w').
Proof.
  intros w'.
  apply (save_then_load Demo.BASE Demo.toy [py "new"] tt
           (Demo.on_disk Demo.disk_old_index) w').
  vm_compute. reflexivity.
Defined.

(** X8 at work: the first query on a disk with the four PDFs and no index. *)
Lemma open_vector_store_reloads_witness :
  (open_vector_store Demo.BASE Demo.toy (py "E") (Demo.on_disk Demo.disk_pdfs)).1
  = Ok [py "E = mc^2"; py "just text"; py "p = mv"; py "spin"].
Proof.
  rewrite (open_vector_store_reloads Demo.BASE Demo.toy (py "E")
             (Demo.on_disk Demo.disk_pdfs)
             (create_vector_store Demo.BASE Demo.toy (PDF_FILES Demo.BASE)
                (logged WARNING
                   (py "Vector store not found at " ++ VECTOR_STORE_DIR Demo.BASE
                    ++ py ". Creating new one...")
                   (Demo.on_disk Demo.disk_pdfs))).2
             [py "E = mc^2"; py "just text"; py "p = mv"; py "spin"] tt).
  - vm_compute. reflexivity.
  - vm_compute. reflexivity.
  - vm_compute. reflexivity.
  - reflexivity.
Defined.

(** X7 at work: a query on a disk that holds the script's directory only. *)
Lemma retrieve_answer_without_documents_witness :
  exists w',
    retrieve_answer Demo.BASE Demo.toy (py "E") 3 (Demo.on_disk Demo.disk_bare)
    = (Ok (py "Error retrieving information: No documents loaded from PDFs"), w')
    /\ fs w' = Demo.disk_bare.
Proof.
  destruct (retrieve_answer_without_documents Demo.BASE Demo.toy (py "E") 3
              (Demo.on_disk Demo.disk_bare)) as (w' & Hr & F & _).
  - vm_compute. reflexivity.
  - repeat constructor.
  - exists w'. split; [exact Hr|exact F].
Defined.

(** X12 at work: [1.pdf] is loaded, [2.pdf] makes the loader raise, [3.pdf]
    is never looked at. *)
Lemma load_documents_loader_error_witness :
  exists w',
    load_documents Demo.toy (PDF_FILES Demo.BASE) (Demo.on_disk Demo.disk_bad_pdf)
    = (Raise (Exn (py "IsADirectoryError") (py "/app/2.pdf")), w')
    /\ log w' = [ (INFO, py "Loading PDF: /app/1.pdf");
                  (INFO, py "Loaded 1 pages from /app/1.pdf");
                  (INFO, py "Loading PDF: /app/2.pdf") ].
Proof.
  destruct (load_documents_loader_error Demo.toy
              (fun _ => [Demo.hit (py "E = mc^2")])
              [py "/app/1.pdf"] [py "/app/3.pdf"; py "/app/4.pdf"]
              (py "/app/2.pdf") (Demo.on_disk Demo.disk_bad_pdf) Dir
              (Exn (py "IsADirectoryError") (py "/app/2.pdf")))
    as (w' & Hr & _ & _ & Hl).
  - repeat constructor. intros m. vm_compute. intros [= <-]. reflexivity.
  - vm_compute. reflexivity.
  - reflexivity.
  - exists w'. split; [exact Hr|exact Hl].
Defined.

(** ** More on the rebuild script *)

Lemma list_sizes_run (pdfs : list str) (w : world) :
  list_sizes pdfs w
  = (match first_missing (fs w) pdfs with
     | Some q =>
         Raise (os_error "[Errno 2] No such file or directory" q "FileNotFoundError")
     | None => Ok tt
     end, w).
Proof.
  unfold first_missing.
  induction pdfs as [|p rest IH]; [reflexivity|].
  simpl list_sizes. rewrite run_bind. unfold os_path_getsize.
  rewrite run_bind. unfold read_fs. simpl find.
  destruct (fs w !! p) as [[|c]|]; try reflexivity; exact IH.
Qed.

Lemma rmtree_lookup_outside (d q : str) (f : gmap str node) :
  ~ within d q -> filter (fun kv => ¬ within d kv.1) f !! q = f !! q.
Proof.
  intros H. destruct (f !! q) as [x|] eqn:E.
  - apply map_lookup_filter_Some. now split.
  - apply map_lookup_filter_None. now left.
Qed.

Lemma pdf_outside_index (B name : str) :
  startswith (py "/") name = false ->
  name <> py "quantum_index" ->
  startswith (py "quantum_index/") name = false ->
  ~ within (VECTOR_STORE_DIR B) (os_path_join B name).
Proof.
  intros Hrel Hne Hpre. rewrite VECTOR_STORE_DIR_eq.
  rewrite (os_path_join_relative B name Hrel). intros [H|H].
  - apply app_inv_head in H. contradiction.
  - rewrite <- app_assoc, startswith_app_same in H.
    change (py "quantum_index" ++ py "/") with (py "quantum_index/") in H.
    congruence.
Qed.

Lemma PDF_FILES_outside_index (B : str) :
  Forall (fun p => ~ within (VECTOR_STORE_DIR B) p) (PDF_FILES B).
Proof.
  unfold PDF_FILES.
  repeat constructor; apply pdf_outside_index; (reflexivity || discriminate).
Qed.

Lemma first_missing_ext (f g : gmap str node) (pdfs : list str) :
  Forall (fun p => g !! p = f !! p) pdfs ->
  first_missing g pdfs = first_missing f pdfs.
Proof.
  unfold first_missing. induction 1 as [|p ps Hp Hps IH]; [reflexivity|].
  simpl. now rewrite Hp, IH.
Qed.

Section RebuildMore.
Context {Embeddings VectorStore : Type}.
Variable BASE_DIR : str.
Variable L : Libs Embeddings VectorStore.

(** The script over an index directory: it comes to its tail with the
    directory and everything below it removed. *)
Lemma rebuild_over_directory (w : world) :
  fs w !! VECTOR_STORE_DIR BASE_DIR = Some Dir ->
  exists w1,
    rebuild_vector_store BASE_DIR L w = rebuild_tail BASE_DIR L w1
    /\ fs w1 = filter (fun kv => ¬ within (VECTOR_STORE_DIR BASE_DIR) kv.1) (fs w)
    /\ first_missing (fs w1) (PDF_FILES BASE_DIR)
       = first_missing (fs w) (PDF_FILES BASE_DIR)
    /\ fs w1 !! VECTOR_STORE_DIR BASE_DIR = None
    /\ fs w1 !! index_faiss BASE_DIR = None
    /\ fs w1 !! index_pkl BASE_DIR = None.
Proof.
  intros Hd. rewrite rebuild_vector_store_run.
  destruct (import_RAG_engine_fs BASE_DIR w) as (w0 & -> & F & _).
  rewrite F, Hd. unfold shutil_rmtree. rewrite run_bind. unfold read_fs.
  rewrite F, Hd. unfold write_fs.
  eexists. split; [reflexivity|]. cbn [fs wrote]. split; [reflexivity|].
  split; [|split; [|split]].
  - apply first_missing_ext.
    eapply Forall_impl; [apply PDF_FILES_outside_index|].
    intros p Hp. now apply rmtree_lookup_outside.
  - apply rmtree_lookup, within_dir.
  - apply rmtree_lookup, within_index_faiss.
  - apply rmtree_lookup, within_index_pkl.
Qed.

(** X13: over an existing index directory, with one of the configured PDFs
    missing, the script deletes the index and is then aborted by the size
    listing, outside its [try] statement, with the [FileNotFoundError] of
    the first missing path: no build is attempted and no index is left. *)
Theorem rebuild_aborts_on_missing_pdf (w : world) (q : str) :
  fs w !! VECTOR_STORE_DIR BASE_DIR = Some Dir ->
  first_missing (fs w) (PDF_FILES BASE_DIR) = Some q ->
  exists w',
    rebuild_vector_store BASE_DIR L w
    = (Raise (os_error "[Errno 2] No such file or directory" q "FileNotFoundError"),
       w')
    /\ fs w' !! VECTOR_STORE_DIR BASE_DIR = None
    /\ fs w' !! index_faiss BASE_DIR = None
    /\ fs w' !! index_pkl BASE_DIR = None
    /\ fs w' !! q = None.
Proof.
  intros Hd Hq.
  destruct (rebuild_over_directory w Hd) as (w1 & -> & F & Hm & D & A & P).
  exists w1. split.
  - unfold rebuild_tail. rewrite run_bind, list_sizes_run, Hm, Hq. reflexivity.
  - repeat split; try assumption.
    rewrite <- Hm in Hq. unfold first_missing in Hq.
    apply find_some in Hq as [_ Hq]. now destruct (fs w1 !! q).
Qed.

End RebuildMore.

(** X13 at work: a complete index and no PDF. *)
Lemma rebuild_aborts_on_missing_pdf_witness :
  exists w',
    rebuild_vector_store Demo.BASE Demo.toy (Demo.on_disk Demo.disk_no_pdfs)
    = (Raise (os_error "[Errno 2] No such file or directory"
                (py "/app/1.pdf") "FileNotFoundError"), w')
    /\ fs w' !! py "/app/quantum_index/index.faiss" = None.
Proof.
  destruct (rebuild_aborts_on_missing_pdf Demo.BASE Demo.toy
              (Demo.on_disk Demo.disk_no_pdfs) (py "/app/1.pdf"))
    as (w' & Hr & _ & Hf & _).
  - vm_compute. reflexivity.
  - vm_compute. reflexivity.
  - exists w'. split; [exact Hr|exact Hf].
Defined.

(** ** The chat front end *)

Lemma u_run_bind {A B : Type} (c : U A) (k : A -> U B) (s : ui) :
  (c ≫= k) s
  = match c s with
    | (Ok a, s1) => k a s1
    | (Raise e, s1) => (Raise e, s1)
    end.
Proof. reflexivity. Qed.

Lemma init_key_union (key : str) (v : sval) (m : gmap str sval) :
  match m !! key with Some _ => m | None => <[key := v]> m end
  = m ∪ {[key := v]}.
Proof.
  apply map_eq. intros k. rewrite lookup_union.
  destruct (m !! key) as [x|] eqn:E.
  - destruct (decide (key = k)) as [<-|Hne].
    + rewrite E, lookup_singleton_eq. reflexivity.
    + rewrite lookup_singleton_ne by exact Hne. now destruct (m !! k).
  - destruct (decide (key = k)) as [<-|Hne].
    + rewrite lookup_insert_eq, E, lookup_singleton_eq. reflexivity.
    + rewrite lookup_insert_ne, lookup_singleton_ne by exact Hne.
      now destruct (m !! k).
Qed.

Lemma init_key_run (key : str) (v : sval) (s : ui) :
  (b ← state_has key; if negb b then set_state key v else mret tt) s
  = (Ok tt, {| session_state := session_state s ∪ {[key := v]};
               shown := shown s |}).
Proof.
  rewrite u_run_bind. unfold state_has, set_state.
  rewrite <- init_key_union.
  destruct (session_state s !! key); destruct s; reflexivity.
Qed.

Lemma session_defaults_eq :
  ({[py "rag_messages" := SList []]} : gmap str sval)
  ∪ ({[py "ai_messages" := SList []]}
     ∪ ({[py "mode" := SNone]}
        ∪ ({[py "last_request_time" := SNone]}
           ∪ ({[py "api_status" := SNone]} ∪ {[py "last_error" := SNone]}))))
  = SESSION_DEFAULTS.
Proof. vm_compute. reflexivity. Qed.

(** X15: [init_session_state] gives each of its six keys its default value
    where the key is missing and changes nothing else: the session state
    becomes the old one completed by the defaults, every value already
    there is kept, and running it again changes nothing. *)
Theorem init_session_state_defaults (s : ui) :
  exists s',
    init_session_state s = (Ok tt, s')
    /\ session_state s' = session_state s ∪ SESSION_DEFAULTS
    /\ shown s' = shown s
    /\ init_session_state s' = (Ok tt, s').
Proof.
  assert (forall s0, init_session_state s0
            = (Ok tt, {| session_state := session_state s0 ∪ SESSION_DEFAULTS;
                         shown := shown s0 |})) as Hrun.
  { intros s0. unfold init_session_state.
    repeat (rewrite u_run_bind, init_key_run). rewrite init_key_run.
    cbn [session_state shown]. rewrite <- !(assoc_L (∪)).
    now rewrite session_defaults_eq. }
  eexists. split; [apply Hrun|]. cbn [session_state shown].
  split; [reflexivity|]. split; [reflexivity|].
  rewrite Hrun. cbn [session_state shown].
  now rewrite <- (assoc_L (∪)), (idemp_L (∪) SESSION_DEFAULTS).
Qed.

Lemma u_run_try {A : Type} (body : U A) (handler : exn -> U A) (s : ui) :
  u_try body handler s
  = match body s with
    | (Ok a, s1) => (Ok a, s1)
    | (Raise e, s1) => handler e s1
    end.
Proof. reflexivity. Qed.

Lemma startswith_refl (s : str) : startswith s s = true.
Proof. rewrite <- (app_nil_r s) at 2. apply startswith_app. Qed.

Section FrontProps.
Variable F : Front.

(** On an object the loop returns the first usable value in the order of
    the keys, and clears [last_error] when that value is a string. *)
Lemma scan_keys_dict (d : list (str * json)) (keys : list str) (s : ui) :
  scan_keys F keys (JDict d) s
  = (Ok (fst <$> first_usable F d keys),
     match first_usable F d keys with
     | Some (_, true) => with_last_error SNone s
     | _ => s
     end).
Proof.
  induction keys as [|key rest IH]; [reflexivity|].
  simpl scan_keys. simpl first_usable. rewrite u_run_bind.
  unfold u_lift, py_in, py_getitem.
  destruct (dict_get d key) as [v|]; [|exact IH].
  rewrite u_run_bind. cbn [mbind option_bind]. unfold usable.
  destruct (truthy v); [|exact IH].
  destruct v as [| | | |t| |]; try exact IH; try reflexivity.
  destruct (strip t); [exact IH|reflexivity].
Qed.

(** However the loop ends, it has either left the state alone or cleared
    [last_error] on returning a string that is not blank. *)
Lemma scan_keys_outcome (keys : list str) (data : json) (s : ui) :
  match scan_keys F keys data s with
  | (Raise _, s') | (Ok None, s') => s' = s
  | (Ok (Some r), s') =>
      (s' = with_last_error SNone s /\ strip r <> [])
      \/ (s' = s /\ exists v, r = json_dumps F v)
  end.
Proof.
  induction keys as [|key rest IH]; [reflexivity|].
  simpl scan_keys. rewrite u_run_bind. unfold u_lift.
  destruct (py_in F key data) as [[|]|e]; [|exact IH|reflexivity].
  rewrite u_run_bind.
  destruct (py_getitem F data key) as [v|e]; [|reflexivity].
  destruct (truthy v); [|exact IH].
  destruct v as [| | | |t| |]; try exact IH.
  - destruct (strip t) eqn:E; [exact IH|]. left. split; [reflexivity|].
    rewrite E. discriminate.
  - right. split; [reflexivity|]. now eexists.
  - right. split; [reflexivity|]. now eexists.
Qed.

Lemma get_response_on_object
  (prompt mode : str) (s : ui) (response : http_response)
  (d : list (str * json)) :
  requests_get F (if decide (mode = py "rag") then API_RAG else API_AI)
    [(if decide (mode = py "rag") then py "query" else py "issue", prompt)] 60
  = Ok response ->
  status_code response = 200%Z ->
  json_body response = Ok (JDict d) ->
  exists r s',
    get_response F prompt mode s = (Ok r, s')
    /\ match first_usable F d possible_keys with
       | Some (t, true) =>
           r = t /\ session_state s' !! py "last_error" = Some SNone
       | Some (t, false) =>
           r = t
           /\ session_state s' !! py "last_error"
              = session_state s !! py "last_error"
       | None =>
           r = match dict_get d (py "error") with
               | Some v => WARN ++ py " API Error: " ++ fmt F v
               | None => unexpected_format F (JDict d) (List.map fst d)
               end
           /\ session_state s' !! py "last_error" = Some (SStr r)
       end.
Proof.
  intros Hreq Hstatus Hjson.
  unfold get_response. rewrite u_run_try. unfold get_response_body.
  rewrite u_run_bind. unfold set_state at 1. rewrite u_run_bind.
  set (s1 := {| session_state := _; shown := shown s |}).
  assert (session_state s1 !! py "last_error" = session_state s !! py "last_error")
    as Hle by (unfold s1; cbn [session_state]; now rewrite lookup_insert_ne).
  match goal with |- context [(if DEBUG_MODE F then ?a else ?b) s1] =>
    assert (exists s2, (if DEBUG_MODE F then a else b) s1 = (Ok tt, s2)
                       /\ session_state s2 = session_state s1) as (s2 & -> & H2)
      by (destruct (DEBUG_MODE F); eexists; split; reflexivity)
  end.
  rewrite u_run_bind. unfold u_lift at 1. rewrite Hreq, Hstatus.
  cbn [Z.eqb Pos.eqb negb]. rewrite Hjson, u_run_bind.
  match goal with |- context [(if DEBUG_MODE F then ?a else ?b) s2] =>
    assert (exists s3, (if DEBUG_MODE F then a else b) s2 = (Ok tt, s3)
                       /\ session_state s3 = session_state s2) as (s3 & -> & H3)
      by (destruct (DEBUG_MODE F); eexists; split; reflexivity)
  end.
  rewrite u_run_bind, scan_keys_dict.
  destruct (first_usable F d possible_keys) as [[t [|]]|].
  - eexists _, _. split; [reflexivity|]. split; [reflexivity|].
    cbn [session_state with_last_error]. apply lookup_insert_eq.
  - eexists _, _. split; [reflexivity|]. split; [reflexivity|].
    now rewrite H3, H2.
  - cbn [fmap option_fmap option_map]. rewrite u_run_bind.
    unfold u_lift, py_in, py_getitem, py_keys.
    destruct (dict_get d (py "error")) as [v|]; rewrite u_run_bind;
      eexists _, _; (split; [reflexivity|]); (split; [reflexivity|]);
      cbn [session_state]; apply lookup_insert_eq.
Qed.

(** X16: when the service answers with status 200 and a JSON object,
    [get_response] returns the value of the first key, in the order
    response, answer, troubleshooting_guide, context, result, output, text,
    message, whose value is a string that is not blank, or a list or object
    that is not empty (returned as its JSON dump); values that are null,
    false, zero, a number, true, blank or empty are passed over.  A string
    clears [last_error], a dump leaves it as it was.  When no key is usable
    the object's [error] entry, or else the list of its keys, is reported
    and recorded in [last_error]. *)
Theorem get_response_object
  (prompt mode : str) (s : ui) (response : http_response)
  (d : list (str * json)) :
  requests_get F (if decide (mode = py "rag") then API_RAG else API_AI)
    [(if decide (mode = py "rag") then py "query" else py "issue", prompt)] 60
  = Ok response ->
  status_code response = 200%Z ->
  json_body response = Ok (JDict d) ->
  exists r s',
    get_response F prompt mode s = (Ok r, s')
    /\ match first_usable F d possible_keys with
       | Some (t, true) =>
           r = t /\ session_state s' !! py "last_error" = Some SNone
       | Some (t, false) =>
           r = t
           /\ session_state s' !! py "last_error"
              = session_state s !! py "last_error"
       | None =>
           r = match dict_get d (py "error") with
               | Some v => WARN ++ py " API Error: " ++ fmt F v
               | None => unexpected_format F (JDict d) (List.map fst d)
               end
           /\ session_state s' !! py "last_error" = Some (SStr r)
       end.
Proof. apply get_response_on_object. Qed.


Lemma status_message_warn (response : http_response) :
  startswith WARN (status_message F response) = true.
Proof.
  unfold status_message. cbv zeta.
  destruct (json_body response) as [error_data|e];
    [destruct (py_in F (py "error") error_data) as [[|]|e];
     [destruct (py_getitem F error_data (py "error")) as [v|e]| |]|];
    rewrite <- ?app_assoc; apply startswith_app.
Qed.

Lemma error_return_run (msg : str) (s : ui) :
  error_return msg s = (Ok msg, with_last_error (SStr msg) s).
Proof. reflexivity. Qed.

(** How the [try] block ends, in terms of the session state [m] it starts
    its work on (the request time recorded). *)
Lemma get_response_body_outcome (prompt mode : str) (s : ui) :
  let m := <[py "last_request_time" := SDatetime (datetime_now F)]>
             (session_state s) in
  match get_response_body F prompt mode s with
  | (Ok r, s') =>
      (session_state s' = <[py "last_error" := SNone]> m /\ strip r <> [])
      \/ (session_state s' = m /\ exists v, r = json_dumps F v)
      \/ (session_state s' = <[py "last_error" := SStr r]> m
          /\ startswith WARN r = true)
  | (Raise _, s') => session_state s' = m
  end.
Proof.
  intros m. unfold get_response_body.
  rewrite u_run_bind. unfold set_state at 1. rewrite u_run_bind.
  set (s1 := {| session_state := _; shown := shown s |}).
  match goal with |- context [(if DEBUG_MODE F then ?a else ?b) s1] =>
    assert (exists s2, (if DEBUG_MODE F then a else b) s1 = (Ok tt, s2)
                       /\ session_state s2 = m) as (s2 & -> & H2)
      by (destruct (DEBUG_MODE F); eexists; split; reflexivity)
  end.
  rewrite u_run_bind. unfold u_lift at 1.
  destruct (requests_get F _ _ _) as [response|e]; [|exact H2].
  destruct (negb (status_code response =? 200)%Z).
  { rewrite error_return_run. right. right. cbn [session_state with_last_error].
    rewrite H2. split; [reflexivity|apply status_message_warn]. }
  destruct (json_body response) as [data|e].
  2:{ destruct (is_JSONDecodeError F e); [|exact H2].
      rewrite error_return_run. right. right.
      cbn [session_state with_last_error]. rewrite H2.
      split; [reflexivity|apply startswith_app]. }
  rewrite u_run_bind.
  match goal with |- context [(if DEBUG_MODE F then ?a else ?b) s2] =>
    assert (exists s3, (if DEBUG_MODE F then a else b) s2 = (Ok tt, s3)
                       /\ session_state s3 = m) as (s3 & -> & H3)
      by (destruct (DEBUG_MODE F); eexists; (split; [reflexivity|exact H2]))
  end.
  rewrite u_run_bind.
  pose proof (scan_keys_outcome possible_keys data s3) as Hscan.
  destruct (scan_keys F possible_keys data s3) as [[[r|]|e] s4].
  - destruct Hscan as [[-> Hr]|[-> Hv]].
    + left. cbn [session_state with_last_error]. now rewrite H3.
    + right. left. now split.
  - subst s4. rewrite u_run_bind. unfold u_lift.
    destruct (py_in F (py "error") data) as [[|]|e]; [| |exact H3].
    + rewrite u_run_bind.
      destruct (py_getitem F data (py "error")) as [v|e]; [|exact H3].
      rewrite error_return_run. right. right.
      cbn [session_state with_last_error]. rewrite H3.
      split; [reflexivity|apply startswith_app].
    + rewrite u_run_bind.
      destruct (py_keys F data) as [keys|e]; [|exact H3].
      rewrite error_return_run. right. right.
      cbn [session_state with_last_error]. rewrite H3.
      split; [reflexivity|apply startswith_app].
  - now subst s4.
Qed.


(** X19: a failure of [requests.get] that is both a connection error and a
    time-out (such as a connect time-out) is reported in two ways: the
    health check, which tests for [ConnectionError] first, says it cannot
    connect; [get_response], which tests for [Timeout] first, says the
    request timed out, and records that in [last_error]. *)
Theorem connect_timeout_reported_twice
  (prompt mode : str) (s : ui) (e : exn) :
  (forall url params timeout, requests_get F url params timeout = Raise e) ->
  is_Timeout F e = true ->
  is_ConnectionError F e = true ->
  check_api_health F
  = Ok (false, HealthText (py "Cannot connect to API server"))
  /\ exists s',
       get_response F prompt mode s = (Ok (TIMEOUT_MESSAGE), s')
       /\ session_state s' !! py "last_error" = Some (SStr TIMEOUT_MESSAGE).
Proof.
  intros Hreq Ht Hc. split.
  - unfold check_api_health. cbv zeta. now rewrite Hreq, Hc.
  - unfold get_response. rewrite u_run_try. unfold get_response_body.
    rewrite u_run_bind. unfold set_state at 1. rewrite u_run_bind.
    match goal with |- context [(if DEBUG_MODE F then ?a else ?b) ?s1] =>
      assert (exists s2, (if DEBUG_MODE F then a else b) s1 = (Ok tt, s2))
        as (s2 & ->) by (destruct (DEBUG_MODE F); eexists; reflexivity)
    end.
    rewrite u_run_bind. unfold u_lift at 1. rewrite Hreq.
    unfold get_response_handler. rewrite Ht, error_return_run.
    eexists. split; [reflexivity|].
    cbn [session_state with_last_error]. apply lookup_insert_eq.
Qed.
End FrontProps.

(** *** From the service to the page *)

Lemma head_not_space_strip (s : str) (c : N) :
  head s = Some c -> isspace c = false -> s <> [] /\ strip s <> [].
Proof.
  intros Hh Hc. split; [now intros ->|].
  intros E. apply strip_spaces in E. destruct s as [|x r]; [discriminate|].
  injection Hh as ->. unfold spaces in E. simpl in E. now rewrite Hc in E.
Qed.

Lemma answer_shape_not_blank (s : str) :
  answer_shape s -> s <> [] /\ strip s <> [].
Proof.
  intros H. destruct (answer_shape_head s H) as [Hh|[->|Hh]].
  - now apply (head_not_space_strip s 69).
  - split; discriminate.
  - now apply (head_not_space_strip s 42).
Qed.

Lemma dict_get_singleton (k key : str) (v : json) :
  dict_get [(k, v)] key = if bool_decide (k = key) then Some v else None.
Proof. unfold dict_get. simpl. now destruct (bool_decide (k = key)). Qed.

Section EndToEnd.
Context {Embeddings VectorStore : Type}.
Variable BASE_DIR : str.
Variable L : Libs Embeddings VectorStore.
Variable F : Front.

(** The handler answers with the string of [retrieve_answer] under the key
    [context]. *)
Lemma rag_run (query : str) (w : world) :
  exists context w1,
    retrieve_answer BASE_DIR L query 3
      (logged INFO (py "RAG query received: " ++ query) w) = (Ok context, w1)
    /\ answer_shape context
    /\ (rag BASE_DIR L query w).1 = Ok {[ py "context" := context ]}.
Proof.
  destruct (retrieve_answer_shape BASE_DIR L query 3
              (logged INFO (py "RAG query received: " ++ query) w))
    as (c & w1 & Hr & Hs).
  exists c, w1. split; [exact Hr|]. split; [exact Hs|].
  destruct (answer_shape_not_blank c Hs) as [Hne _].
  unfold rag. rewrite run_try_except, run_bind. unfold logger at 1.
  rewrite run_bind, Hr. destruct c; [congruence|reflexivity].
Qed.

Lemma first_usable_context (context : str) :
  context <> [] -> strip context <> [] ->
  first_usable F [(py "context", JStr context)] possible_keys
  = Some (context, true).
Proof.
  intros Hne Hs. unfold possible_keys. cbn [first_usable].
  rewrite !dict_get_singleton.
  rewrite !bool_decide_eq_false_2 by discriminate.
  rewrite bool_decide_eq_true_2 by reflexivity.
  cbn [mbind option_bind]. unfold usable. simpl truthy.
  destruct context; [congruence|]. now destruct (strip _).
Qed.

(** X18: in RAG mode, when the service has run its [/rag] handler on the
    question and the front end receives the handler's answer with status
    200, [get_response] returns exactly the string [retrieve_answer]
    produced for the question and clears [last_error]. *)
Theorem rag_answer_shown
  (prompt : str) (w : world) (s : ui) (response : http_response)
  (answer : gmap str str) :
  (rag BASE_DIR L prompt w).1 = Ok answer ->
  requests_get F API_RAG [(py "query", prompt)] 60 = Ok response ->
  status_code response = 200%Z ->
  json_body response = Ok (JDict (map_to_list (JStr <$> answer))) ->
  exists context w1 s',
    retrieve_answer BASE_DIR L prompt 3
      (logged INFO (py "RAG query received: " ++ prompt) w) = (Ok context, w1)
    /\ get_response F prompt (py "rag") s = (Ok context, s')
    /\ session_state s' !! py "last_error" = Some SNone.
Proof.
  intros Hrag Hreq Hstatus Hjson.
  destruct (rag_run prompt w) as (c & w1 & Hr & Hshape & Hrag').
  rewrite Hrag' in Hrag. injection Hrag as <-.
  rewrite map_fmap_singleton, map_to_list_singleton in Hjson.
  destruct (answer_shape_not_blank c Hshape) as [Hne Hs].
  destruct (get_response_on_object F prompt (py "rag") s response
              [(py "context", JStr c)]) as (r & s' & Hg & Hm);
    try assumption.
  rewrite (first_usable_context c Hne Hs) in Hm. destruct Hm as [-> Hle].
  now exists c, w1, s'.
Qed.
End EndToEnd.

(** X16 at work: the blank [answer] and the empty [result] are passed over,
    [context] is returned, the [error] entry is not looked at. *)
Lemma get_response_object_witness :
  (get_response Demo.front (py "hi") (py "ai") Demo.session0).1 = Ok (py "ctx").
Proof.
  destruct (get_response_object Demo.front (py "hi") (py "ai") Demo.session0
              {| status_code := 200; json_body := Ok (JDict Demo.object_answer);
                 text := [] |}
              Demo.object_answer) as (r & s' & Hg & Hm).
  - reflexivity.
  - reflexivity.
  - reflexivity.
  - rewrite Hg. vm_compute in Hm. destruct Hm as [-> _]. reflexivity.
Defined.

(** X18 at work: the question ["o"] against the toy store. *)
Lemma rag_answer_shown_witness :
  (get_response Demo.front (py "o") (py "rag") Demo.session0).1
  = Ok (py "**Source 1** (Page 0):" ++ [nl] ++ py "old").
Proof.
  destruct (rag_answer_shown Demo.BASE Demo.toy Demo.front (py "o")
              (Demo.on_disk Demo.disk_old_index) Demo.session0
              {| status_code := 200;
                 json_body :=
                   Ok (JDict (map_to_list
                                (JStr <$> ({[ py "context" :=
                                   py "**Source 1** (Page 0):" ++ [nl] ++ py "old" ]}
                                   : gmap str str))));
                 text := [] |}
              {[ py "context" := py "**Source 1** (Page 0):" ++ [nl] ++ py "old" ]})
    as (c & w1 & s' & Hr & Hg & _).
  - vm_compute. reflexivity.
  - vm_compute. reflexivity.
  - reflexivity.
  - reflexivity.
  - rewrite Hg. vm_compute in Hr. now injection Hr as <- _.
Defined.

(** X19 at work: every request of [Demo.front_down] ends in a connect
    time-out. *)
Lemma connect_timeout_reported_twice_witness :
  check_api_health Demo.front_down
  = Ok (false, HealthText (py "Cannot connect to API server"))
  /\ (get_response Demo.front_down (py "hi") (py "ai") Demo.session0).1
     = Ok TIMEOUT_MESSAGE.
Proof.
  destruct (connect_timeout_reported_twice Demo.front_down (py "hi") (py "ai")
              Demo.session0 (Exn (py "ConnectTimeout") (py "timed out")))
    as (Hc & s' & Hg & _); try reflexivity.
  split; [exact Hc|]. now rewrite Hg.
Defined.
